(** * SFSOAP2REST: the SOAP login exchange of [main.py]

    A shallow embedding of the three functions of [main.py]
    ([get_salesforce_session_id], [parse_login_response],
    [test_rest_api_with_session]) and the properties of the login
    request/response exchange.

    Python values are modelled as follows: a [str] is a [string] (one
    [ascii] per character; a character outside ASCII is held as its UTF-8
    bytes), a value that is [None] or a [str] is an [option string], a
    [dict] with string keys is a [gmap string string].
    A call either returns or raises ([outcome]); console output and HTTP
    traffic are recorded as a trace of [event]s.  The libraries the script
    calls ([xml.etree.ElementTree.fromstring], [requests.post],
    [requests.get]) are not part of the script: they are the fields of a
    [World] over which every theorem is quantified. *)

From Stdlib Require Import ZArith String Ascii List Lia DecimalString.
From stdpp Require Import base option list strings gmap.

Open Scope string_scope.

(** ** Python runtime *)

Module Py.

(** The part of the exception hierarchy the script can meet.
    [KeyboardInterrupt] and [SystemExit] derive from [BaseException] and
    not from [Exception]. *)
Inductive exn_class :=
| BaseException | KeyboardInterrupt | SystemExit
| Exception | TypeError | AttributeError | IndexError | ValueError
| UnicodeEncodeError | SyntaxError | ParseError
| OSError | RequestException | ConnectionError | Timeout.

#[global] Instance exn_class_eq_dec : EqDecision exn_class.
Proof. solve_decision. Defined.

(** Method resolution order: the class itself, then its bases. *)
Definition mro (c : exn_class) : list exn_class :=
  match c with
  | BaseException => [BaseException]
  | KeyboardInterrupt => [KeyboardInterrupt; BaseException]
  | SystemExit => [SystemExit; BaseException]
  | Exception => [Exception; BaseException]
  | TypeError => [TypeError; Exception; BaseException]
  | AttributeError => [AttributeError; Exception; BaseException]
  | IndexError => [IndexError; Exception; BaseException]
  | ValueError => [ValueError; Exception; BaseException]
  | UnicodeEncodeError => [UnicodeEncodeError; ValueError; Exception; BaseException]
  | SyntaxError => [SyntaxError; Exception; BaseException]
  | ParseError => [ParseError; SyntaxError; Exception; BaseException]
  | OSError => [OSError; Exception; BaseException]
  | RequestException => [RequestException; OSError; Exception; BaseException]
  | ConnectionError =>
      [ConnectionError; RequestException; OSError; Exception; BaseException]
  | Timeout => [Timeout; RequestException; OSError; Exception; BaseException]
  end.

Definition issubclass (c d : exn_class) : bool := bool_decide (d ∈ mro c).

(** An exception instance: its class and [str(e)]. *)
Record exn := Exn { exn_class_of : exn_class; exn_str : string }.

(** [except cls as e] handles [e] when [isinstance e cls]. *)
Definition isinstance (e : exn) (cls : exn_class) : bool :=
  issubclass (exn_class_of e) cls.

Inductive outcome (A : Type) :=
| Ret (a : A)
| Raise (e : exn).
Arguments Ret {A} a.
Arguments Raise {A} e.

(** [str(n)] for an [int]. *)
Definition str_of_int (n : Z) : string := NilEmpty.string_of_int (Z.to_int n).

(** [f"{v}"] for a value that is [None] or a [str]. *)
Definition format_value (v : option string) : string :=
  match v with
  | None => "None"
  | Some s => s
  end.

(** [bool(v)] for a value that is [None] or a [str]. *)
Definition truthy (v : option string) : bool :=
  match v with
  | None => false
  | Some EmptyString => false
  | Some (String _ _) => true
  end.

(** [s[:n]] on a [str]. *)
Definition slice_to (s : string) (n : nat) : string := substring 0 n s.

(** [v[:n]] on a value that is [None] or a [str]. *)
Definition getslice_to (v : option string) (n : nat) : outcome string :=
  match v with
  | None => Raise (Exn TypeError "'NoneType' object is not subscriptable")
  | Some s => Ret (slice_to s n)
  end.

(** [str.split(sep)]: scan left to right; at an occurrence of [sep] close
    the current piece and skip the separator.  [skip] counts the
    characters of a matched separator still to pass over. *)
Fixpoint split_go (sep s : string) (skip : nat) (cur : string) : list string :=
  match s with
  | EmptyString => [cur]
  | String c s' =>
      match skip with
      | S k => split_go sep s' k cur
      | O =>
          if String.prefix sep s
          then cur :: split_go sep s' (String.length sep - 1) EmptyString
          else split_go sep s' 0 (cur ++ String c EmptyString)
      end
  end.

Definition str_split (s sep : string) : outcome (list string) :=
  match sep with
  | EmptyString => Raise (Exn ValueError "empty separator")
  | _ => Ret (split_go sep s 0 EmptyString)
  end.

(** [v.split(sep)] on a value that is [None] or a [str]. *)
Definition split (v : option string) (sep : string) : outcome (list string) :=
  match v with
  | None => Raise (Exn AttributeError "'NoneType' object has no attribute 'split'")
  | Some s => str_split s sep
  end.

(** [l[i]] on a list. *)
Definition getitem (l : list string) (i : nat) : outcome string :=
  match l !! i with
  | Some x => Ret x
  | None => Raise (Exn IndexError "list index out of range")
  end.

End Py.

Import Py.

(** ** ElementTree data model and queries *)

Module ET.

(** [xml.etree.ElementTree.Element]: the tag is in Clark notation
    ([{uri}local]) when the element is in a namespace. *)
#[local] Unset Elimination Schemes.
Inductive Element := Elem {
  tag : string;
  attrib : list (string * string);
  text : option string;
  tail : option string;
  children : list Element
}.
#[local] Set Elimination Schemes.

(** [Element.iter(tag)]: the element itself when it matches, then the
    matching elements of each subtree, in document order; [None] matches
    every element. *)
Fixpoint iter (tg : option string) (e : Element) : list Element :=
  match e with
  | Elem t _ _ _ cs =>
      (match tg with
       | None => [e]
       | Some t' => if String.eqb t t' then [e] else []
       end) ++ flat_map (iter tg) cs
  end.

(** A prefixed name [prefix:local] of a path, looked up in the prefix map
    given to [find]. *)
Definition qualify (namespaces : gmap string string) (prefix local : string)
  : outcome string :=
  match namespaces !! prefix with
  | Some uri => Ret ("{" ++ uri ++ "}" ++ local)
  | None => Raise (Exn SyntaxError ("prefix '" ++ prefix ++ "' not found in prefix map"))
  end.

(** The selector of the path step [//tag] applied to [elem]: every [e] of
    [elem.iter(tag)] with [e is not elem]. *)
Definition iterfind_descendant (elem : Element) (tg : string) : list Element :=
  flat_map (iter (Some tg)) (children elem).

(** [elem.find('.//prefix:local', namespaces)]: the first match, or
    [None]. *)
Definition find_descendant (elem : Element) (prefix local : string)
    (namespaces : gmap string string) : outcome (option Element) :=
  match qualify namespaces prefix local with
  | Ret tg => Ret (head (iterfind_descendant elem tg))
  | Raise e => Raise e
  end.

End ET.

(** ** A reference parser for [ET.fromstring]

    [ET.fromstring] belongs to the Python standard library (it drives
    expat).  The theorems below hold for every parser; to run them on
    concrete documents this module gives an executable parser of the
    fragment of XML made of an optional XML declaration, start, end and
    empty-element tags with attributes, namespace declarations, character
    data and the five predefined entities.  Comments, CDATA sections,
    DOCTYPE, processing instructions and character references are outside
    the fragment and are reported as errors; expat's diagnostic text (with
    line and column) is not reproduced. *)

Module XmlRef.
Import ET.

Definition dquote : ascii := ascii_of_nat 34.

Definition is_ws (c : ascii) : bool :=
  let n := nat_of_ascii c in
  (n =? 32)%nat || (n =? 9)%nat || (n =? 10)%nat || (n =? 13)%nat.

Definition is_name_start (c : ascii) : bool :=
  let n := nat_of_ascii c in
  ((65 <=? n)%nat && (n <=? 90)%nat) || ((97 <=? n)%nat && (n <=? 122)%nat)
  || (n =? 95)%nat || (n =? 58)%nat || (128 <=? n)%nat.

Definition is_name_char (c : ascii) : bool :=
  let n := nat_of_ascii c in
  is_name_start c || ((48 <=? n)%nat && (n <=? 57)%nat)
  || (n =? 45)%nat || (n =? 46)%nat.

Definition snoc (s : string) (c : ascii) : string := s ++ String c EmptyString.

Fixpoint all_ws (s : string) : bool :=
  match s with
  | EmptyString => true
  | String c s' => is_ws c && all_ws s'
  end.

(** The longest prefix of name characters, and the rest. *)
Fixpoint span_name (s : string) : string * string :=
  match s with
  | EmptyString => (EmptyString, EmptyString)
  | String c s' =>
      if is_name_char c
      then let '(n, r) := span_name s' in (String c n, r)
      else (EmptyString, s)
  end.

(** *** Entities *)

Definition entity (name : string) : option ascii :=
  if String.eqb name "lt" then Some "<"%char
  else if String.eqb name "gt" then Some ">"%char
  else if String.eqb name "amp" then Some "&"%char
  else if String.eqb name "quot" then Some dquote
  else if String.eqb name "apos" then Some "'"%char
  else None.

(** [ent] holds the name of the entity reference being read, if any. *)
Fixpoint decode (s : string) (ent : option string) : option string :=
  match s with
  | EmptyString => match ent with None => Some EmptyString | Some _ => None end
  | String c s' =>
      match ent with
      | None =>
          if Ascii.eqb c "&" then decode s' (Some EmptyString)
          else String c <$> decode s' None
      | Some e =>
          if Ascii.eqb c ";"
          then match entity e with
               | Some ch => String ch <$> decode s' None
               | None => None
               end
          else decode s' (Some (snoc e c))
      end
  end.

(** *** Markup and character data *)

Inductive chunk :=
| CText (s : string)
| CMarkup (s : string).

Inductive lex_state :=
| InText (acc : string)
| InMarkup (acc : string) (quote : option ascii).

Definition emit_text (acc : string) (rest : list chunk) : list chunk :=
  match acc with
  | EmptyString => rest
  | _ => CText acc :: rest
  end.

(** Cut the document at [<] and [>]; a [>] inside a quoted attribute
    value does not end the tag. *)
Fixpoint chunks (s : string) (st : lex_state) : option (list chunk) :=
  match s with
  | EmptyString =>
      match st with
      | InText acc => Some (emit_text acc [])
      | InMarkup _ _ => None
      end
  | String c s' =>
      match st with
      | InText acc =>
          if Ascii.eqb c "<"
          then emit_text acc <$> chunks s' (InMarkup EmptyString None)
          else chunks s' (InText (snoc acc c))
      | InMarkup acc None =>
          if Ascii.eqb c ">"
          then cons (CMarkup acc) <$> chunks s' (InText EmptyString)
          else if Ascii.eqb c "<" then None
          else if Ascii.eqb c dquote || Ascii.eqb c "'"
          then chunks s' (InMarkup (snoc acc c) (Some c))
          else chunks s' (InMarkup (snoc acc c) None)
      | InMarkup acc (Some q) =>
          if Ascii.eqb c "<" then None
          else chunks s' (InMarkup (snoc acc c)
                            (if Ascii.eqb c q then None else Some q))
      end
  end.

(** *** Tags *)

Inductive token :=
| TDecl
| TStart (name : string) (attrs : list (string * string))
| TEmpty (name : string) (attrs : list (string * string))
| TEnd (name : string)
| TText (s : string).

Inductive attr_state :=
| ASep (seen_ws : bool)
| AName (n : string)
| AEq (n : string)
| AQuote (n : string)
| AValue (n : string) (q : ascii) (v : string)
| ASlash.

(** The attributes of a start tag, after its name: the list in document
    order and whether the tag ends in [/]. *)
Fixpoint attrs_go (s : string) (st : attr_state) (acc : list (string * string))
  : option (list (string * string) * bool) :=
  match s with
  | EmptyString =>
      match st with
      | ASep _ => Some (acc, false)
      | ASlash => Some (acc, true)
      | _ => None
      end
  | String c s' =>
      match st with
      | ASep ws =>
          if is_ws c then attrs_go s' (ASep true) acc
          else if Ascii.eqb c "/" then attrs_go s' ASlash acc
          else if ws && is_name_start c
          then attrs_go s' (AName (String c EmptyString)) acc
          else None
      | AName n =>
          if is_name_char c then attrs_go s' (AName (snoc n c)) acc
          else if Ascii.eqb c "=" then attrs_go s' (AQuote n) acc
          else if is_ws c then attrs_go s' (AEq n) acc
          else None
      | AEq n =>
          if is_ws c then attrs_go s' (AEq n) acc
          else if Ascii.eqb c "=" then attrs_go s' (AQuote n) acc
          else None
      | AQuote n =>
          if is_ws c then attrs_go s' (AQuote n) acc
          else if Ascii.eqb c dquote || Ascii.eqb c "'"
          then attrs_go s' (AValue n c EmptyString) acc
          else None
      | AValue n q v =>
          if Ascii.eqb c q
          then match decode v None with
               | Some v' => attrs_go s' (ASep false) (acc ++ [(n, v')])
               | None => None
               end
          else attrs_go s' (AValue n q (snoc v c)) acc
      | ASlash => None
      end
  end.

Definition ends_with_qmark (s : string) : bool :=
  match String.length s with
  | O => false
  | S n => String.eqb (substring n 1 s) "?"
  end.

Definition parse_markup (m : string) : option token :=
  match m with
  | EmptyString => None
  | String c rest =>
      if Ascii.eqb c "?"
      then if String.prefix "xml" rest && ends_with_qmark rest
           then Some TDecl else None
      else if Ascii.eqb c "/"
      then let '(n, r) := span_name rest in
           match n with
           | String c0 _ => if is_name_start c0 && all_ws r then Some (TEnd n) else None
           | EmptyString => None
           end
      else if is_name_start c
      then let '(n, r) := span_name m in
           match attrs_go r (ASep false) [] with
           | Some (attrs, true) => Some (TEmpty n attrs)
           | Some (attrs, false) => Some (TStart n attrs)
           | None => None
           end
      else None
  end.

Definition token_of (c : chunk) : option token :=
  match c with
  | CText s => TText <$> decode s None
  | CMarkup m => parse_markup m
  end.

Definition tokens (s : string) : option (list token) :=
  chunks s (InText EmptyString) ≫= mapM token_of.

(** *** Namespaces *)

(** Prefix bindings in scope, innermost first; the default namespace is
    bound to the empty prefix. *)
Definition scope := list (string * string).

Fixpoint lookup_prefix (p : string) (sc : scope) : option string :=
  match sc with
  | [] => None
  | (q, uri) :: sc' => if String.eqb p q then Some uri else lookup_prefix p sc'
  end.

Definition initial_scope : scope :=
  [("xml", "http://www.w3.org/XML/1998/namespace")].

(** Split a qualified name at its colon. *)
Fixpoint split_colon (s : string) (acc : string) : option (option string * string) :=
  match s with
  | EmptyString => Some (None, acc)
  | String c s' =>
      if Ascii.eqb c ":"
      then match acc, s' with
           | String _ _, String _ _ =>
               if String.eqb (fst (span_name s')) s'
                  && negb (existsb (Ascii.eqb ":") (list_ascii_of_string s'))
               then Some (Some acc, s') else None
           | _, _ => None
           end
      else split_colon s' (snoc acc c)
  end.

Definition clark (uri local : string) : string := "{" ++ uri ++ "}" ++ local.

Definition expand_tag (sc : scope) (name : string) : option string :=
  match split_colon name EmptyString with
  | Some (None, l) =>
      match lookup_prefix EmptyString sc with
      | Some (String _ _ as uri) => Some (clark uri l)
      | _ => Some l
      end
  | Some (Some p, l) => (fun uri => clark uri l) <$> lookup_prefix p sc
  | None => None
  end.

Definition expand_attr (sc : scope) (name : string) : option string :=
  match split_colon name EmptyString with
  | Some (None, l) => Some l
  | Some (Some p, l) => (fun uri => clark uri l) <$> lookup_prefix p sc
  | None => None
  end.

(** The namespace declarations among the attributes of a tag. *)
Fixpoint declarations (attrs : list (string * string)) : scope :=
  match attrs with
  | [] => []
  | (n, v) :: rest =>
      if String.eqb n "xmlns" then (EmptyString, v) :: declarations rest
      else if String.prefix "xmlns:" n
      then (substring 6 (String.length n - 6) n, v) :: declarations rest
      else declarations rest
  end.

Definition is_declaration (a : string * string) : bool :=
  String.eqb (fst a) "xmlns" || String.prefix "xmlns:" (fst a).

Fixpoint expand_attrs (sc : scope) (attrs : list (string * string))
  : option (list (string * string)) :=
  match attrs with
  | [] => Some []
  | (n, v) :: rest =>
      if is_declaration (n, v) then expand_attrs sc rest
      else match expand_attr sc n, expand_attrs sc rest with
           | Some n', Some rest' => Some ((n', v) :: rest')
           | _, _ => None
           end
  end.

Fixpoint distinct (l : list string) : bool :=
  match l with
  | [] => true
  | x :: l' => negb (existsb (String.eqb x) l') && distinct l'
  end.

(** *** Tree construction *)

(** An element whose end tag has not been read yet. *)
Record frame := Frame {
  f_raw : string;
  f_tag : string;
  f_attrib : list (string * string);
  f_scope : scope;
  f_text : option string;
  f_kids : list Element
}.

Definition append_text (o : option string) (s : string) : option string :=
  match o with
  | None => Some s
  | Some t => Some (t ++ s)
  end.

(** Character data goes to the text of the open element until its first
    child, and to the tail of its last child afterwards. *)
Definition add_text (s : string) (f : frame) : frame :=
  match f_kids f with
  | [] => Frame (f_raw f) (f_tag f) (f_attrib f) (f_scope f)
            (append_text (f_text f) s) []
  | Elem t a x tl cs :: ks =>
      Frame (f_raw f) (f_tag f) (f_attrib f) (f_scope f) (f_text f)
        (Elem t a x (append_text tl s) cs :: ks)
  end.

Definition add_child (e : Element) (f : frame) : frame :=
  Frame (f_raw f) (f_tag f) (f_attrib f) (f_scope f) (f_text f) (e :: f_kids f).

Definition current_scope (stack : list frame) : scope :=
  match stack with
  | [] => initial_scope
  | f :: _ => f_scope f
  end.

Definition open_frame (sc : scope) (name : string) (attrs : list (string * string))
  : option frame :=
  let sc' := (declarations attrs ++ sc)%list in
  if distinct (map fst attrs)
  then match expand_tag sc' name, expand_attrs sc' attrs with
       | Some t, Some a =>
           if distinct (map fst a) then Some (Frame name t a sc' None []) else None
       | _, _ => None
       end
  else None.

Definition close_frame (f : frame) : Element :=
  Elem (f_tag f) (f_attrib f) (f_text f) None (rev (f_kids f)).

(** [root] is the document element once its end tag has been read. *)
Fixpoint build (ts : list token) (stack : list frame) (root : option Element)
  : option Element :=
  match ts with
  | [] => match stack with [] => root | _ :: _ => None end
  | TDecl :: _ => None
  | TText s :: ts' =>
      match stack with
      | [] => if all_ws s then build ts' [] root else None
      | f :: fs => build ts' (add_text s f :: fs) root
      end
  | TStart n attrs :: ts' =>
      match stack, root with
      | [], Some _ => None
      | _, _ =>
          match open_frame (current_scope stack) n attrs with
          | Some f => build ts' (f :: stack) root
          | None => None
          end
      end
  | TEmpty n attrs :: ts' =>
      match open_frame (current_scope stack) n attrs with
      | Some f =>
          match stack, root with
          | [], Some _ => None
          | [], None => build ts' [] (Some (close_frame f))
          | p :: ps, _ => build ts' (add_child (close_frame f) p :: ps) root
          end
      | None => None
      end
  | TEnd n :: ts' =>
      match stack with
      | [] => None
      | f :: fs =>
          if String.eqb n (f_raw f)
          then match fs with
               | [] => build ts' [] (Some (close_frame f))
               | p :: ps => build ts' (add_child (close_frame f) p :: ps) root
               end
          else None
      end
  end.

Definition parse_error : exn := Exn ParseError "not well-formed".

(** The XML declaration is allowed at the very start only. *)
Definition fromstring (s : string) : outcome Element :=
  match tokens s with
  | None => Raise parse_error
  | Some ts =>
      match build (match ts with TDecl :: r => r | _ => ts end) [] None with
      | Some e => Ret e
      | None => Raise parse_error
      end
  end.

End XmlRef.

(** ** HTTP and console effects *)

Module Requests.

(** What the script reads of a [requests.Response]; [json_len] is the
    outcome of [len(response.json())]. *)
Record Response := {
  status_code : Z;
  text : string;
  json_len : outcome nat
}.

End Requests.

Inductive event :=
| Print (line : string)
| HttpPost (url data : string) (headers : gmap string string) (timeout : Z)
| HttpGet (url : string) (headers : gmap string string).

(** The libraries the script calls. *)
Record World := {
  ET_fromstring : string -> outcome ET.Element;
  requests_post : string -> string -> gmap string string -> Z -> outcome Requests.Response;
  requests_get : string -> gmap string string -> outcome Requests.Response
}.

(** A computation: the events it performed, then its outcome. *)
Definition M (A : Type) : Type := list event * outcome A.

Definition trace {A} (m : M A) : list event := fst m.
Definition result {A} (m : M A) : outcome A := snd m.

#[global] Instance M_ret : MRet M := fun A a => ([], Ret a).

#[global] Instance M_bind : MBind M := fun A B f m =>
  match m with
  | (tr, Ret a) => let '(tr', r) := f a in ((tr ++ tr')%list, r)
  | (tr, Raise e) => (tr, Raise e)
  end.

Definition lift {A} (o : outcome A) : M A := ([], o).

Definition print (line : string) : M unit := ([Print line], Ret tt).

(** [try: body except cls as e: handler e] *)
Definition try_except {A} (body : M A) (cls : exn_class) (handler : exn -> M A) : M A :=
  match body with
  | (tr, Raise e) =>
      if isinstance e cls
      then let '(tr', r) := handler e in ((tr ++ tr')%list, r)
      else (tr, Raise e)
  | (tr, Ret a) => (tr, Ret a)
  end.

Definition http_post (w : World) (url data : string) (headers : gmap string string)
    (timeout : Z) : M Requests.Response :=
  ([HttpPost url data headers timeout], requests_post w url data headers timeout).

Definition http_get (w : World) (url : string) (headers : gmap string string)
    : M Requests.Response :=
  ([HttpGet url headers], requests_get w url headers).

(** The POST requests of a trace, in order. *)
Definition is_post (ev : event) : bool :=
  match ev with
  | HttpPost _ _ _ _ => true
  | _ => false
  end.

Definition posts (tr : list event) : list event := List.filter is_post tr.

(** ** The script *)

Definition dq : string := String (ascii_of_nat 34) EmptyString.
Definition nl : string := String (ascii_of_nat 10) EmptyString.

(** An f-string: literal pieces and substituted values, concatenated. *)
Inductive fpart :=
| Lit (s : string)
| Sub (v : string).

Definition fstring (parts : list fpart) : string :=
  String.concat EmptyString
    (map (fun p => match p with Lit s => s | Sub v => v end) parts).

Definition login_url (is_sandbox : bool) : string :=
  if is_sandbox
  then "https://mysandbox.my.salesforce.com/services/Soap/u/60.0"
  else "https://login.salesforce.com/services/Soap/u/60.0".

Definition soap_body (username password security_token : string) : string :=
  fstring
    [ Lit ("<?xml version=" ++ dq ++ "1.0" ++ dq ++ " encoding=" ++ dq ++ "utf-8" ++ dq ++ "?>" ++ nl
           ++ "<soapenv:Envelope xmlns:soapenv=" ++ dq ++ "http://schemas.xmlsoap.org/soap/envelope/" ++ dq
           ++ " xmlns:urn=" ++ dq ++ "urn:partner.soap.sforce.com" ++ dq ++ ">" ++ nl
           ++ "    <soapenv:Header/>" ++ nl
           ++ "    <soapenv:Body>" ++ nl
           ++ "        <urn:login>" ++ nl
           ++ "            <urn:username>");
      Sub username;
      Lit ("</urn:username>" ++ nl
           ++ "            <urn:password>");
      Sub password;
      Sub security_token;
      Lit ("</urn:password>" ++ nl
           ++ "        </urn:login>" ++ nl
           ++ "    </soapenv:Body>" ++ nl
           ++ "</soapenv:Envelope>") ].

Definition login_headers : gmap string string :=
  {[ "Content-Type" := "text/xml; charset=UTF-8"; "SOAPAction" := "login" ]}.

Definition namespaces : gmap string string :=
  {[ "soapenv" := "http://schemas.xmlsoap.org/soap/envelope/";
     "ns" := "urn:partner.soap.sforce.com" ]}.

Definition parse_login_response (w : World) (response_xml : string)
    : M (option string * option string) :=
  try_except
    (root ← lift (ET_fromstring w response_xml);
     session_id_element ← lift (ET.find_descendant root "ns" "sessionId" namespaces);
     server_url_element ← lift (ET.find_descendant root "ns" "serverUrl" namespaces);
     match session_id_element, server_url_element with
     | Some session_id_element, Some server_url_element =>
         let session_id := ET.text session_id_element in
         let server_url := ET.text server_url_element in
         print "Login successful!";;
         shown ← lift (getslice_to session_id 20);
         print ("Session ID: " ++ shown ++ "...");;
         print ("Server URL: " ++ format_value server_url);;
         mret (session_id, server_url)
     | _, _ =>
         print "Could not find sessionId or serverUrl in response";;
         mret (None, None)
     end)
    ParseError
    (fun e =>
       print ("Error parsing XML response: " ++ exn_str e);;
       mret (None, None)).

Definition get_salesforce_session_id (w : World)
    (username password security_token : string) (is_sandbox : bool)
    : M (option string * option string) :=
  let login_url := login_url is_sandbox in
  let soap_body := soap_body username password security_token in
  let headers := login_headers in
  try_except
    (response ← http_post w login_url soap_body headers 30;
     print ("Response Status: " ++ str_of_int (Requests.status_code response));;
     print ("Response Body: " ++ slice_to (Requests.text response) 500 ++ "...");;
     if (Requests.status_code response =? 200)%Z
     then parse_login_response w (Requests.text response)
     else
       print ("Login failed with status " ++ str_of_int (Requests.status_code response));;
       mret (None, None))
    Exception
    (fun e =>
       print ("Error during SOAP login: " ++ exn_str e);;
       mret (None, None)).

(** Lines 118-119: the REST base URL of a SOAP server URL. *)
Definition rest_base_url (server_url : option string) : outcome string :=
  match split server_url "/services/" with
  | Ret parts =>
      match getitem parts 0 with
      | Ret base_url => Ret (base_url ++ "/services/data/v60.0")
      | Raise e => Raise e
      end
  | Raise e => Raise e
  end.

Definition test_rest_api_with_session (w : World) (session_id server_url : option string)
    : M unit :=
  if negb (truthy session_id) || negb (truthy server_url)
  then print "No valid session to test with"
  else
    try_except
      (rest_base_url ← lift (rest_base_url server_url);
       let headers : gmap string string :=
         {[ "Authorization" := "Bearer " ++ format_value session_id;
            "Content-Type" := "application/json" ]} in
       response ← http_get w (rest_base_url ++ "/") headers;
       print (nl ++ "REST API Test:");;
       print ("Status: " ++ str_of_int (Requests.status_code response));;
       if (Requests.status_code response =? 200)%Z
       then
         print "‚úÖ Successfully authenticated with REST API using SOAP session!";;
         n ← lift (Requests.json_len response);
         print ("Available versions: " ++ str_of_int (Z.of_nat n) ++ " versions found")
       else
         print ("‚ùå REST API call failed: " ++ Requests.text response))
      Exception
      (fun e => print ("Error testing REST API: " ++ exn_str e)).

(** Lines 142-167: the script run as a program, with its literal
    credentials and [IS_SANDBOX = True]. *)
Definition USERNAME : string := "USER".
Definition PASSWORD : string := "PASS".
Definition SECURITY_TOKEN : string := "TOKEN".
Definition IS_SANDBOX : bool := true.

Definition main (w : World) : M unit :=
  print "Attempting SOAP login to Salesforce...";;
  login ← get_salesforce_session_id w USERNAME PASSWORD SECURITY_TOKEN IS_SANDBOX;
  let '(session_id, server_url) := login in
  if truthy session_id
  then
    print (nl ++ "üéâ SOAP Authentication successful!");;
    test_rest_api_with_session w session_id server_url;;
    print (nl ++ "You can now use this session ID for API calls:");;
    print ("Session ID: " ++ format_value session_id);;
    print ("Authorization header: Bearer " ++ format_value session_id)
  else
    print "‚ùå SOAP Authentication failed".

(** ** Vocabulary of the properties *)

(** The tag of an element [local] of the Partner namespace. *)
Definition partner_tag (local : string) : string :=
  "{urn:partner.soap.sforce.com}" ++ local.

(** [descendant e root]: [e] lies below [root], at any depth. *)
Inductive descendant : ET.Element -> ET.Element -> Prop :=
| descendant_child e p :
    In e (ET.children p) -> descendant e p
| descendant_deeper e c p :
    In c (ET.children p) -> descendant e c -> descendant e p.

(** The elements of the document whose root is [root]. *)
Definition in_document (e root : ET.Element) : Prop :=
  e = root \/ descendant e root.

(** The document has an element tagged [tg]. *)
Definition has_element (tg : string) (root : ET.Element) : Prop :=
  exists e, in_document e root /\ ET.tag e = tg.

(** The document has an element tagged [tg] whose text is [s]. *)
Definition has_element_with_text (tg s : string) (root : ET.Element) : Prop :=
  exists e, in_document e root /\ ET.tag e = tg /\ ET.text e = Some s.

(** The elements below [root] in document order. *)
Definition descendants (root : ET.Element) : list ET.Element :=
  flat_map (ET.iter None) (ET.children root).

(** [e] is the first element tagged [tg] below [root] in document order. *)
Definition first_below (tg : string) (root e : ET.Element) : Prop :=
  exists before after,
    descendants root = (before ++ e :: after)%list
    /\ ET.tag e = tg
    /\ Forall (fun x => ET.tag x <> tg) before.

(** [x] carries the tag [tg]. *)
Definition tagged (tg : string) (x : ET.Element) : bool := String.eqb (ET.tag x) tg.

(** What [parse_login_response] does once the body has been parsed. *)
Definition after_parse (root : ET.Element) : M (option string * option string) :=
  match head (List.filter (tagged (partner_tag "sessionId")) (descendants root)),
        head (List.filter (tagged (partner_tag "serverUrl")) (descendants root)) with
  | Some se, Some ue =>
      match ET.text se with
      | Some s =>
          ([Print "Login successful!";
            Print ("Session ID: " ++ slice_to s 20 ++ "...");
            Print ("Server URL: " ++ format_value (ET.text ue))],
           Ret (Some s, ET.text ue))
      | None =>
          ([Print "Login successful!"],
           Raise (Exn TypeError "'NoneType' object is not subscriptable"))
      end
  | _, _ =>
      ([Print "Could not find sessionId or serverUrl in response"], Ret (None, None))
  end.

(** Everything before the first occurrence of [sep] in [s]; all of [s] when
    [sep] does not occur. *)
Definition prefix_before (sep s : string) : string :=
  match index 0 sep s with
  | Some n => substring 0 n s
  | None => s
  end.

(** The fixed text of the login envelope around its two fields. *)
Definition envelope_head : string :=
  "<?xml version=" ++ dq ++ "1.0" ++ dq ++ " encoding=" ++ dq ++ "utf-8" ++ dq ++ "?>" ++ nl
  ++ "<soapenv:Envelope xmlns:soapenv=" ++ dq ++ "http://schemas.xmlsoap.org/soap/envelope/" ++ dq
  ++ " xmlns:urn=" ++ dq ++ "urn:partner.soap.sforce.com" ++ dq ++ ">" ++ nl
  ++ "    <soapenv:Header/>" ++ nl
  ++ "    <soapenv:Body>" ++ nl
  ++ "        <urn:login>" ++ nl
  ++ "            <urn:username>".

Definition envelope_middle : string :=
  "</urn:username>" ++ nl ++ "            <urn:password>".

Definition envelope_tail : string :=
  "</urn:password>" ++ nl
  ++ "        </urn:login>" ++ nl
  ++ "    </soapenv:Body>" ++ nl
  ++ "</soapenv:Envelope>".

(** A world for running the script on concrete inputs: the reference
    parser and a transport with canned answers. *)
Definition mock_world (post_answer get_answer : outcome Requests.Response) : World := {|
  ET_fromstring := XmlRef.fromstring;
  requests_post := fun _ _ _ _ => post_answer;
  requests_get := fun _ _ => get_answer
|}.

Definition http_response (status : Z) (body : string) : Requests.Response := {|
  Requests.status_code := status;
  Requests.text := body;
  Requests.json_len := Raise (Exn ValueError "Expecting value")
|}.

Definition unreachable : outcome Requests.Response :=
  Raise (Exn ConnectionError "Connection refused").

(** The one request of a login. *)
Definition login_request (username password security_token : string)
    (is_sandbox : bool) : event :=
  HttpPost (login_url is_sandbox) (soap_body username password security_token)
    login_headers 30.

(** A login response with the given fields, as the server lays it out. *)
Definition login_response_body (session_id server_url : string) : string :=
  "<?xml version='1.0' encoding='UTF-8'?><soapenv:Envelope xmlns:soapenv='http://schemas.xmlsoap.org/soap/envelope/' xmlns='urn:partner.soap.sforce.com'><soapenv:Body><loginResponse><result><serverUrl>"
  ++ server_url ++ "</serverUrl><sessionId>" ++ session_id
  ++ "</sessionId></result></loginResponse></soapenv:Body></soapenv:Envelope>".

(** ** Sample documents *)

Definition leaf (tg : string) (txt : option string) : ET.Element :=
  ET.Elem tg [] txt None [].

Definition node (tg : string) (cs : list ET.Element) : ET.Element :=
  ET.Elem tg [] None None cs.

Definition offline : World := mock_world unreachable unreachable.

(** A login response; the text of both elements has surrounding blanks and
    the server URL is not a URL. *)
Definition login_doc : string :=
  "<soapenv:Envelope xmlns:soapenv='http://schemas.xmlsoap.org/soap/envelope/' xmlns='urn:partner.soap.sforce.com'><soapenv:Body><loginResponse><result><serverUrl> not a url </serverUrl><sessionId> 00D!AQ </sessionId></result></loginResponse></soapenv:Body></soapenv:Envelope>".

Definition login_serverUrl : ET.Element :=
  leaf (partner_tag "serverUrl") (Some " not a url ").

Definition login_sessionId : ET.Element :=
  leaf (partner_tag "sessionId") (Some " 00D!AQ ").

Definition login_tree : ET.Element :=
  node "{http://schemas.xmlsoap.org/soap/envelope/}Envelope"
    [node "{http://schemas.xmlsoap.org/soap/envelope/}Body"
       [node (partner_tag "loginResponse")
          [node (partner_tag "result") [login_serverUrl; login_sessionId]]]].

(** Two [sessionId] elements. *)
Definition twice_doc : string :=
  "<r xmlns='urn:partner.soap.sforce.com'><sessionId>A</sessionId><sessionId>B</sessionId><serverUrl>U</serverUrl></r>".

Definition twice_tree : ET.Element :=
  node (partner_tag "r")
    [leaf (partner_tag "sessionId") (Some "A");
     leaf (partner_tag "sessionId") (Some "B");
     leaf (partner_tag "serverUrl") (Some "U")].

(** An empty [serverUrl] element. *)
Definition empty_url_doc : string :=
  "<r xmlns='urn:partner.soap.sforce.com'><sessionId>abc</sessionId><serverUrl/></r>".

(** An empty [sessionId] element. *)
Definition empty_id_doc : string :=
  "<r xmlns='urn:partner.soap.sforce.com'><sessionId/><serverUrl>u</serverUrl></r>".

Definition empty_id_tree : ET.Element :=
  node (partner_tag "r")
    [leaf (partner_tag "sessionId") None;
     leaf (partner_tag "serverUrl") (Some "u")].

(** A SOAP fault: neither element. *)
Definition fault_doc : string :=
  "<soapenv:Envelope xmlns:soapenv='http://schemas.xmlsoap.org/soap/envelope/'><soapenv:Body><soapenv:Fault><faultcode>INVALID_LOGIN</faultcode></soapenv:Fault></soapenv:Body></soapenv:Envelope>".

Definition fault_tree : ET.Element :=
  node "{http://schemas.xmlsoap.org/soap/envelope/}Envelope"
    [node "{http://schemas.xmlsoap.org/soap/envelope/}Body"
       [node "{http://schemas.xmlsoap.org/soap/envelope/}Fault"
          [leaf "faultcode" (Some "INVALID_LOGIN")]]].

(** ** Further vocabulary *)

Definition is_get (ev : event) : bool :=
  match ev with
  | HttpGet _ _ => true
  | _ => false
  end.

(** The GET requests of a trace, in order. *)
Definition gets (tr : list event) : list event := List.filter is_get tr.

Definition is_print (ev : event) : bool :=
  match ev with
  | Print _ => true
  | _ => false
  end.

(** The headers of the REST probe for a session id. *)
Definition probe_headers (session_id : string) : gmap string string :=
  {[ "Authorization" := "Bearer " ++ session_id;
     "Content-Type" := "application/json" ]}.

(** The request of the REST probe. *)
Definition probe_request (session_id server_url : string) : event :=
  HttpGet ((prefix_before "/services/" server_url ++ "/services/data/v60.0") ++ "/")
    (probe_headers session_id).

(** The login request of the script run as a program. *)
Definition main_login : event :=
  login_request USERNAME PASSWORD SECURITY_TOKEN IS_SANDBOX.

(** [s[n:]] on a [str]. *)
Fixpoint slice_from (n : nat) (s : string) : string :=
  match n, s with
  | O, _ => s
  | S n', EmptyString => EmptyString
  | S n', String _ s' => slice_from n' s'
  end.

(** A parser that cannot encode its input (a lone surrogate). *)
Definition unencodable : exn :=
  Exn UnicodeEncodeError "'utf-8' codec can't encode character '\ud800' in position 0: surrogates not allowed".

Definition surrogate_world : World := {|
  ET_fromstring := fun _ => Raise unencodable;
  requests_post := fun _ _ _ _ => unreachable;
  requests_get := fun _ _ => unreachable
|}.

(** The successful login of the end-to-end scenario. *)
Definition success_url : string :=
  "https://x.my.salesforce.com/services/Soap/u/60.0/00D".

Definition success_doc : string := login_response_body "ABC123" success_url.

Definition success_sessionId : ET.Element :=
  leaf (partner_tag "sessionId") (Some "ABC123").

Definition success_serverUrl : ET.Element :=
  leaf (partner_tag "serverUrl") (Some success_url).

Definition success_tree : ET.Element :=
  node "{http://schemas.xmlsoap.org/soap/envelope/}Envelope"
    [node "{http://schemas.xmlsoap.org/soap/envelope/}Body"
       [node (partner_tag "loginResponse")
          [node (partner_tag "result") [success_serverUrl; success_sessionId]]]].

Definition success_world : World :=
  mock_world (Ret (http_response 200 success_doc))
    (Ret {| Requests.status_code := 200;
            Requests.text := "[]";
            Requests.json_len := Ret 0 |}).

(** ** Exceptions that are not [Exception]s *)

(** The call returns, or raises an instance of [Exception]. *)
Definition Exception_only {A} (o : outcome A) : Prop :=
  match o with
  | Ret _ => True
  | Raise e => isinstance e Exception = true
  end.

(** The libraries raise instances of [Exception] only: no
    [KeyboardInterrupt], no [SystemExit]. *)
Definition raises_Exceptions_only (w : World) : Prop :=
  (forall xml, Exception_only (ET_fromstring w xml))
  /\ (forall url data headers timeout,
        Exception_only (requests_post w url data headers timeout))
  /\ (forall url headers,
        match requests_get w url headers with
        | Ret response => Exception_only (Requests.json_len response)
        | Raise e => isinstance e Exception = true
        end).

(** The handler of line 56 after the events [tr]: an instance of
    [Exception] is reported and the result is [(None, None)]; any other
    exception goes on to the caller. *)
Definition login_handler (tr : list event) (e : exn) : M (option string * option string) :=
  if isinstance e Exception
  then ((tr ++ [Print ("Error during SOAP login: " ++ exn_str e)])%list, Ret (None, None))
  else (tr, Raise e).

(** The handler of line 138 after the events [tr]. *)
Definition probe_handler (tr : list event) (e : exn) : M unit :=
  if isinstance e Exception
  then ((tr ++ [Print ("Error testing REST API: " ++ exn_str e)])%list, Ret tt)
  else (tr, Raise e).

(** Ctrl-C while the request is under way. *)
Definition interrupt : exn := Exn KeyboardInterrupt EmptyString.

Definition interrupted : outcome Requests.Response := Raise interrupt.

(** The string ['\ud800']: a lone surrogate, held as its three bytes. *)
Definition lone_surrogate : string :=
  String (ascii_of_nat 237) (String (ascii_of_nat 160)
    (String (ascii_of_nat 128) EmptyString)).

(** A surrogate code point in a [str]: the bytes [ED A0..BF xx]. *)
Fixpoint has_surrogate (s : string) : bool :=
  match s with
  | String a (String b _ as s') =>
      ((nat_of_ascii a =? 237)%nat && (160 <=? nat_of_ascii b)%nat
       && (nat_of_ascii b <=? 191)%nat)
      || has_surrogate s'
  | _ => false
  end.

(** [ET.fromstring] on a [str]: the text is encoded to UTF-8 before it is
    parsed, which fails on a surrogate. *)
Definition fromstring_str (s : string) : outcome ET.Element :=
  if has_surrogate s then Raise unencodable else XmlRef.fromstring s.

Definition encoding_world : World := {|
  ET_fromstring := fromstring_str;
  requests_post := fun _ _ _ _ => unreachable;
  requests_get := fun _ _ => unreachable
|}.

(** A document whose root is the [sessionId] element. *)
Definition root_doc : string :=
  "<sessionId xmlns='urn:partner.soap.sforce.com'>S<serverUrl>U</serverUrl></sessionId>".

Definition root_tree : ET.Element :=
  ET.Elem (partner_tag "sessionId") [] (Some "S") None
    [ET.Elem (partner_tag "serverUrl") [] (Some "U") None []].

(** ** Lists and trees *)

Lemma Element_ind (P : ET.Element -> Prop) :
  (forall t a x tl cs, Forall P cs -> P (ET.Elem t a x tl cs)) ->
  forall e, P e.
Proof.
  intros step. fix IH 1. intros [t a x tl cs]. apply step.
  induction cs as [|c cs IHcs]; constructor; [apply IH | exact IHcs].
Qed.

Lemma head_filter_Some {A} (p : A -> bool) (l : list A) (e : A) :
  head (List.filter p l) = Some e <->
  exists l1 l2, l = (l1 ++ e :: l2)%list /\ p e = true /\ Forall (fun x => p x = false) l1.
Proof.
  induction l as [|a l IH]; simpl.
  - split; [discriminate|]. intros (l1 & l2 & Heq & _). destruct l1; discriminate.
  - destruct (p a) eqn:Hpa; simpl.
    + split.
      * intros [= ->]. exists [], l. auto.
      * intros (l1 & l2 & Heq & Hpe & Hall). destruct l1 as [|b l1]; simpl in Heq.
        -- congruence.
        -- inversion Heq; subst. inversion Hall; subst. congruence.
    + rewrite IH. split.
      * intros (l1 & l2 & -> & Hpe & Hall). exists (a :: l1), l2. auto.
      * intros (l1 & l2 & Heq & Hpe & Hall). destruct l1 as [|b l1]; simpl in Heq.
        -- inversion Heq; subst. congruence.
        -- inversion Heq; subst. inversion Hall; subst. eauto.
Qed.

Lemma head_filter_None {A} (p : A -> bool) (l : list A) :
  head (List.filter p l) = None <-> Forall (fun x => p x = false) l.
Proof.
  induction l as [|a l IH]; simpl.
  - split; auto.
  - destruct (p a) eqn:Hpa; simpl.
    + split; [discriminate|]. intros Hall. inversion Hall; subst. congruence.
    + rewrite IH. split; [auto|]. intros Hall. inversion Hall; auto.
Qed.

Lemma filter_flat_map {A B} (p : B -> bool) (f g : A -> list B) (l : list A) :
  Forall (fun a => f a = List.filter p (g a)) l ->
  flat_map f l = List.filter p (flat_map g l).
Proof.
  induction 1 as [|a l Ha _ IH]; simpl; [reflexivity|].
  rewrite List.filter_app. congruence.
Qed.

Lemma iter_filter (tg : string) (e : ET.Element) :
  ET.iter (Some tg) e = List.filter (fun x => String.eqb (ET.tag x) tg) (ET.iter None e).
Proof.
  induction e as [t a x tl cs IH] using Element_ind. simpl.
  rewrite <- (filter_flat_map _ (ET.iter (Some tg))) by exact IH.
  destruct (String.eqb t tg); reflexivity.
Qed.

Lemma iterfind_descendant_filter (root : ET.Element) (tg : string) :
  ET.iterfind_descendant root tg =
  List.filter (fun x => String.eqb (ET.tag x) tg) (descendants root).
Proof.
  unfold ET.iterfind_descendant, descendants. apply filter_flat_map.
  apply List.Forall_forall. intros e _. apply iter_filter.
Qed.

Lemma iter_None_unfold (e : ET.Element) : ET.iter None e = e :: descendants e.
Proof. destruct e; reflexivity. Qed.

Lemma in_descendants (e root : ET.Element) :
  In e (descendants root) <-> descendant e root.
Proof.
  revert e. induction root as [t a x tl cs IH] using Element_ind.
  rewrite List.Forall_forall in IH.
  intros e. unfold descendants at 1. simpl. rewrite in_flat_map. split.
  - intros (c & Hc & He). rewrite iter_None_unfold in He. destruct He as [<- | He].
    + apply descendant_child. exact Hc.
    + apply descendant_deeper with (c := c); [exact Hc|]. apply (IH c Hc). exact He.
  - intros Hd. inversion Hd as [e' p Hin | e' c p Hin Hdeep]; subst; simpl in Hin.
    + exists e. split; [exact Hin|]. rewrite iter_None_unfold. left. reflexivity.
    + exists c. split; [exact Hin|]. rewrite iter_None_unfold. right.
      apply (IH c Hin). exact Hdeep.
Qed.

(** ** Computations *)

Lemma bind_lift_Ret {A B} (a : A) (f : A -> M B) : lift (Ret a) ≫= f = f a.
Proof. unfold lift, mbind, M_bind. destruct (f a). reflexivity. Qed.

Lemma bind_lift_Raise {A B} (e : exn) (f : A -> M B) :
  lift (Raise e) ≫= f = ([], Raise e).
Proof. reflexivity. Qed.

(** ** The lookup of [parse_login_response] *)

Lemma find_descendant_ns (root : ET.Element) (local : string) :
  ET.find_descendant root "ns" local namespaces =
  Ret (head (List.filter (tagged (partner_tag local)) (descendants root))).
Proof.
  unfold ET.find_descendant.
  replace (ET.qualify namespaces "ns" local) with (Ret (partner_tag local))
    by reflexivity.
  rewrite iterfind_descendant_filter. reflexivity.
Qed.

Lemma first_below_head (tg : string) (root e : ET.Element) :
  first_below tg root e <->
  head (List.filter (tagged tg) (descendants root)) = Some e.
Proof.
  rewrite head_filter_Some. unfold first_below, tagged.
  split; intros (l1 & l2 & Heq & Htag & Hall); exists l1, l2;
    (split; [exact Heq|split]).
  - apply String.eqb_eq. exact Htag.
  - eapply Forall_impl; [exact Hall|]. intros x Hx. apply String.eqb_neq. exact Hx.
  - apply String.eqb_eq. exact Htag.
  - eapply Forall_impl; [exact Hall|]. intros x Hx. apply String.eqb_neq. exact Hx.
Qed.

Lemma no_descendant_head (tg : string) (root : ET.Element) :
  (forall e, descendant e root -> ET.tag e <> tg) <->
  head (List.filter (tagged tg) (descendants root)) = None.
Proof.
  rewrite head_filter_None, List.Forall_forall. unfold tagged.
  split; intros H e He.
  - apply String.eqb_neq. apply H. apply in_descendants. exact He.
  - apply String.eqb_neq. apply H. apply in_descendants. exact He.
Qed.

Lemma parse_login_response_parsed (w : World) (xml : string) (root : ET.Element) :
  ET_fromstring w xml = Ret root ->
  parse_login_response w xml = after_parse root.
Proof.
  intros Hparse. unfold parse_login_response, after_parse.
  rewrite Hparse, bind_lift_Ret, !find_descendant_ns, bind_lift_Ret, bind_lift_Ret.
  destruct (head (List.filter (tagged (partner_tag "sessionId")) (descendants root)))
    as [se|];
  destruct (head (List.filter (tagged (partner_tag "serverUrl")) (descendants root)))
    as [ue|]; try reflexivity.
  destruct se as [t a [s|] tl cs]; reflexivity.
Qed.

Lemma parse_login_response_raised (w : World) (xml : string) (e : exn) :
  ET_fromstring w xml = Raise e ->
  parse_login_response w xml =
  if isinstance e ParseError
  then ([Print ("Error parsing XML response: " ++ exn_str e)], Ret (None, None))
  else ([], Raise e).
Proof.
  intros Hparse. unfold parse_login_response. rewrite Hparse.
  unfold try_except, lift, mbind, M_bind.
  destruct (isinstance e ParseError); reflexivity.
Qed.

Lemma not_has_element (tg : string) (root : ET.Element) :
  ~ has_element tg root ->
  head (List.filter (tagged tg) (descendants root)) = None.
Proof.
  intros Hno. apply no_descendant_head. intros e He Htag.
  apply Hno. exists e. split; [right; exact He | exact Htag].
Qed.

Lemma after_parse_missing (root : ET.Element) :
  head (List.filter (tagged (partner_tag "sessionId")) (descendants root)) = None
  \/ head (List.filter (tagged (partner_tag "serverUrl")) (descendants root)) = None ->
  after_parse root =
  ([Print "Could not find sessionId or serverUrl in response"], Ret (None, None)).
Proof.
  unfold after_parse. intros [-> | ->]; [reflexivity|].
  destruct (head (List.filter (tagged (partner_tag "sessionId")) (descendants root)));
    reflexivity.
Qed.

Lemma parse_login_response_text_None (w : World) (xml : string)
    (root se ue : ET.Element) :
  ET_fromstring w xml = Ret root ->
  first_below (partner_tag "sessionId") root se -> ET.text se = None ->
  first_below (partner_tag "serverUrl") root ue ->
  parse_login_response w xml =
  ([Print "Login successful!"],
   Raise (Exn TypeError "'NoneType' object is not subscriptable")).
Proof.
  intros Hparse Hse Htext Hue.
  rewrite (parse_login_response_parsed _ _ _ Hparse). unfold after_parse.
  apply first_below_head in Hse, Hue. rewrite Hse, Hue, Htext. reflexivity.
Qed.

(** ** Properties of [parse_login_response] *)

(** C1 (amended).  When the body parses and the first Partner-namespace
    [sessionId] element below the root, in document order, has text [S] and
    the first Partner-namespace [serverUrl] element below the root has text
    [U], [parse_login_response] returns exactly the pair [(S, U)]: both
    texts as they are, without trimming or validation. *)
Theorem parse_login_response_first_match (w : World) (xml : string)
    (root se ue : ET.Element) (S U : string) :
  ET_fromstring w xml = Ret root ->
  first_below (partner_tag "sessionId") root se -> ET.text se = Some S ->
  first_below (partner_tag "serverUrl") root ue -> ET.text ue = Some U ->
  result (parse_login_response w xml) = Ret (Some S, Some U).
Proof.
  intros Hparse Hse HS Hue HU.
  rewrite (parse_login_response_parsed _ _ _ Hparse). unfold after_parse.
  apply first_below_head in Hse, Hue. rewrite Hse, Hue, HS, HU. reflexivity.
Qed.

Lemma parse_login_response_first_match_witness :
  ET_fromstring offline login_doc = Ret login_tree
  /\ first_below (partner_tag "sessionId") login_tree login_sessionId
  /\ first_below (partner_tag "serverUrl") login_tree login_serverUrl
  /\ result (parse_login_response offline login_doc)
     = Ret (Some " 00D!AQ ", Some " not a url ").
Proof.
  assert (Hparse : ET_fromstring offline login_doc = Ret login_tree)
    by (vm_compute; reflexivity).
  assert (Hse : first_below (partner_tag "sessionId") login_tree login_sessionId)
    by (apply first_below_head; vm_compute; reflexivity).
  assert (Hue : first_below (partner_tag "serverUrl") login_tree login_serverUrl)
    by (apply first_below_head; vm_compute; reflexivity).
  split; [exact Hparse|]. split; [exact Hse|]. split; [exact Hue|].
  exact (parse_login_response_first_match offline login_doc login_tree
           login_sessionId login_serverUrl " 00D!AQ " " not a url "
           Hparse Hse eq_refl Hue eq_refl).
Defined.

(** C1 as stated fails: a document with a Partner-namespace [sessionId]
    element of text [B] and a [serverUrl] element of text [U] for which the
    result is not [(B, U)], because an earlier [sessionId] element is the
    one that [find] returns. *)
Lemma parse_login_response_not_any_match :
  ET_fromstring offline twice_doc = Ret twice_tree
  /\ has_element_with_text (partner_tag "sessionId") "B" twice_tree
  /\ has_element_with_text (partner_tag "serverUrl") "U" twice_tree
  /\ result (parse_login_response offline twice_doc) = Ret (Some "A", Some "U")
  /\ result (parse_login_response offline twice_doc) <> Ret (Some "B", Some "U").
Proof.
  split; [vm_compute; reflexivity|].
  split.
  { exists (leaf (partner_tag "sessionId") (Some "B")).
    split; [|split; reflexivity]. right. apply in_descendants. vm_compute. auto. }
  split.
  { exists (leaf (partner_tag "serverUrl") (Some "U")).
    split; [|split; reflexivity]. right. apply in_descendants. vm_compute. auto. }
  split; [vm_compute; reflexivity|].
  vm_compute. discriminate.
Qed.

(** C2 at its failing input: with a [sessionId] element that has text and
    an empty [serverUrl] element the result has exactly one component. *)
Lemma parse_login_response_partial_result :
  result (parse_login_response offline empty_url_doc) = Ret (Some "abc", None).
Proof. vm_compute. reflexivity. Qed.

(** C3 (amended).  On every input on which [ET.fromstring] raises
    [ParseError], which is what it raises on text that is not well-formed
    XML such as an unclosed tag, [parse_login_response] returns
    [(None, None)]: the exception does not reach the caller. *)
Theorem parse_login_response_malformed (w : World) (xml : string) (e : exn) :
  ET_fromstring w xml = Raise e ->
  isinstance e ParseError = true ->
  result (parse_login_response w xml) = Ret (None, None).
Proof.
  intros Hparse Hcls.
  rewrite (parse_login_response_raised _ _ _ Hparse), Hcls. reflexivity.
Qed.

Lemma parse_login_response_malformed_witness :
  ET_fromstring offline "<a>" = Raise XmlRef.parse_error
  /\ isinstance XmlRef.parse_error ParseError = true
  /\ result (parse_login_response offline "<a>") = Ret (None, None).
Proof.
  assert (Hparse : ET_fromstring offline "<a>" = Raise XmlRef.parse_error)
    by (vm_compute; reflexivity).
  split; [exact Hparse|]. split; [reflexivity|].
  exact (parse_login_response_malformed offline "<a>" XmlRef.parse_error
           Hparse eq_refl).
Defined.

(** C3 as stated fails: the string made of a lone surrogate is not XML, the
    parser rejects it with [UnicodeEncodeError], which the handler of
    [ParseError] does not take, and the exception reaches the caller. *)
Lemma parse_login_response_surrogate_escapes :
  ET_fromstring encoding_world lone_surrogate = Raise unencodable
  /\ isinstance unencodable ParseError = false
  /\ result (parse_login_response encoding_world lone_surrogate) = Raise unencodable
  /\ result (parse_login_response encoding_world lone_surrogate) <> Ret (None, None).
Proof.
  split; [vm_compute; reflexivity|]. split; [reflexivity|].
  split; [vm_compute; reflexivity|]. vm_compute. discriminate.
Qed.

(** C4 (amended).  When the body parses and there is no Partner-namespace
    [sessionId] element below the root, or no Partner-namespace [serverUrl]
    element below the root, [parse_login_response] returns
    [(None, None)].  The lookup matches the elements at any depth below the
    root, not only among the root's children: when both occur somewhere
    below the root the result is not [(None, None)], and it is the pair of
    the texts of the first of each when both have text.  The root element
    itself is not matched. *)
Theorem parse_login_response_missing (w : World) (xml : string) (root : ET.Element) :
  ET_fromstring w xml = Ret root ->
  ((~ (exists e, descendant e root /\ ET.tag e = partner_tag "sessionId"))
   \/ (~ (exists e, descendant e root /\ ET.tag e = partner_tag "serverUrl")) ->
   result (parse_login_response w xml) = Ret (None, None))
  /\ (forall se ue,
        descendant se root -> ET.tag se = partner_tag "sessionId" ->
        descendant ue root -> ET.tag ue = partner_tag "serverUrl" ->
        exists se' ue',
          first_below (partner_tag "sessionId") root se'
          /\ first_below (partner_tag "serverUrl") root ue'
          /\ result (parse_login_response w xml) <> Ret (None, None)
          /\ (forall S U,
                ET.text se' = Some S -> ET.text ue' = Some U ->
                result (parse_login_response w xml) = Ret (Some S, Some U))).
Proof.
  intros Hparse. rewrite (parse_login_response_parsed _ _ _ Hparse). split.
  - intros Hno. rewrite after_parse_missing; [reflexivity|].
    destruct Hno as [Hno | Hno]; [left | right];
      apply no_descendant_head; intros e He Htag; apply Hno; exists e; auto.
  - intros se ue Hse Htse Hue Htue. unfold after_parse.
    destruct (head (List.filter (tagged (partner_tag "sessionId")) (descendants root)))
      as [se'|] eqn:Hhs.
    2: { destruct (proj2 (no_descendant_head _ _) Hhs se Hse Htse). }
    destruct (head (List.filter (tagged (partner_tag "serverUrl")) (descendants root)))
      as [ue'|] eqn:Hhu.
    2: { destruct (proj2 (no_descendant_head _ _) Hhu ue Hue Htue). }
    exists se', ue'.
    split; [apply first_below_head; exact Hhs|].
    split; [apply first_below_head; exact Hhu|].
    split.
    + destruct (ET.text se'); discriminate.
    + intros S U -> ->. reflexivity.
Qed.

Lemma parse_login_response_missing_witness :
  (ET_fromstring offline fault_doc = Ret fault_tree
   /\ ~ (exists e, descendant e fault_tree /\ ET.tag e = partner_tag "sessionId")
   /\ result (parse_login_response offline fault_doc) = Ret (None, None))
  /\ (ET_fromstring offline login_doc = Ret login_tree
      /\ descendant login_sessionId login_tree
      /\ descendant login_serverUrl login_tree
      /\ exists se' ue',
           first_below (partner_tag "sessionId") login_tree se'
           /\ first_below (partner_tag "serverUrl") login_tree ue'
           /\ result (parse_login_response offline login_doc) <> Ret (None, None)
           /\ (forall S U,
                 ET.text se' = Some S -> ET.text ue' = Some U ->
                 result (parse_login_response offline login_doc) = Ret (Some S, Some U))).
Proof.
  assert (Hfault : ET_fromstring offline fault_doc = Ret fault_tree)
    by (vm_compute; reflexivity).
  assert (Hlogin : ET_fromstring offline login_doc = Ret login_tree)
    by (vm_compute; reflexivity).
  assert (Hno : ~ (exists e, descendant e fault_tree
                             /\ ET.tag e = partner_tag "sessionId")).
  { intros (e & He & Htag).
    apply in_descendants in He. vm_compute in He.
    repeat (destruct He as [<- | He]; [discriminate|]). exact He. }
  assert (Hse : descendant login_sessionId login_tree).
  { apply in_descendants. vm_compute. auto 10. }
  assert (Hue : descendant login_serverUrl login_tree).
  { apply in_descendants. vm_compute. auto 10. }
  split.
  - split; [exact Hfault|]. split; [exact Hno|].
    exact (proj1 (parse_login_response_missing offline fault_doc fault_tree Hfault)
             (or_introl Hno)).
  - split; [exact Hlogin|]. split; [exact Hse|]. split; [exact Hue|].
    exact (proj2 (parse_login_response_missing offline login_doc login_tree Hlogin)
             login_sessionId login_serverUrl Hse eq_refl Hue eq_refl).
Defined.

(** C4 as stated fails: in this document the [sessionId] element is the
    root, so the document has both elements, and the lookup, which takes
    the elements below the root only, does not match it: the result is
    [(None, None)]. *)
Lemma parse_login_response_root_not_matched :
  ET_fromstring offline root_doc = Ret root_tree
  /\ has_element_with_text (partner_tag "sessionId") "S" root_tree
  /\ has_element_with_text (partner_tag "serverUrl") "U" root_tree
  /\ ET.find_descendant root_tree "ns" "sessionId" namespaces = Ret None
  /\ parse_login_response offline root_doc
     = ([Print "Could not find sessionId or serverUrl in response"], Ret (None, None)).
Proof.
  split; [vm_compute; reflexivity|].
  split.
  { exists root_tree. split; [left; reflexivity | split; reflexivity]. }
  split.
  { exists (ET.Elem (partner_tag "serverUrl") [] (Some "U") None []).
    split; [|split; reflexivity]. right. apply descendant_child. left. reflexivity. }
  split; vm_compute; reflexivity.
Qed.

(** C10.  There is a well-formed document whose Partner-namespace
    [sessionId] element is present and empty (its text is [None]) on which
    [parse_login_response] raises [TypeError], from slicing [None] for the
    debug print; the handler takes [ParseError] only, so the exception
    reaches the caller. *)
Theorem parse_login_response_empty_session_id :
  exists (xml : string) (root se : ET.Element) (e : exn),
    XmlRef.fromstring xml = Ret root
    /\ first_below (partner_tag "sessionId") root se
    /\ ET.text se = None
    /\ exn_class_of e = TypeError
    /\ isinstance e ParseError = false
    /\ forall post_answer get_answer,
         result (parse_login_response (mock_world post_answer get_answer) xml) = Raise e.
Proof.
  exists empty_id_doc, empty_id_tree, (leaf (partner_tag "sessionId") None),
    (Exn TypeError "'NoneType' object is not subscriptable").
  assert (Hparse : XmlRef.fromstring empty_id_doc = Ret empty_id_tree)
    by (vm_compute; reflexivity).
  assert (Hse : first_below (partner_tag "sessionId") empty_id_tree
                  (leaf (partner_tag "sessionId") None))
    by (apply first_below_head; vm_compute; reflexivity).
  assert (Hue : first_below (partner_tag "serverUrl") empty_id_tree
                  (leaf (partner_tag "serverUrl") (Some "u")))
    by (apply first_below_head; vm_compute; reflexivity).
  split; [exact Hparse|]. split; [exact Hse|]. do 3 (split; [reflexivity|]).
  intros post_answer get_answer.
  rewrite (parse_login_response_text_None (mock_world post_answer get_answer)
             empty_id_doc empty_id_tree _ _ Hparse Hse eq_refl Hue).
  reflexivity.
Qed.

(** ** Properties of [get_salesforce_session_id] *)

Lemma posts_app (tr1 tr2 : list event) :
  posts (tr1 ++ tr2) = (posts tr1 ++ posts tr2)%list.
Proof. apply List.filter_app. Qed.

Lemma forallb_is_print_app (l1 l2 : list event) :
  forallb is_print l1 = true -> forallb is_print l2 = true ->
  forallb is_print (l1 ++ l2) = true.
Proof. intros H1 H2. rewrite forallb_app, H1, H2. reflexivity. Qed.

Lemma gets_print_only (tr : list event) :
  forallb is_print tr = true -> gets tr = [].
Proof.
  induction tr as [|ev tr IH]; [reflexivity|]. simpl.
  destruct ev; simpl; try discriminate. exact IH.
Qed.

Lemma posts_print_only (tr : list event) :
  forallb is_print tr = true -> posts tr = [].
Proof.
  induction tr as [|ev tr IH]; [reflexivity|]. simpl.
  destruct ev; simpl; try discriminate. exact IH.
Qed.

Lemma parse_login_response_no_post (w : World) (xml : string) :
  posts (trace (parse_login_response w xml)) = [].
Proof.
  destruct (ET_fromstring w xml) as [root | e] eqn:Hparse.
  - rewrite (parse_login_response_parsed _ _ _ Hparse). unfold after_parse.
    destruct (head (List.filter (tagged (partner_tag "sessionId")) (descendants root)))
      as [[t a [x|] tl cs]|];
    destruct (head (List.filter (tagged (partner_tag "serverUrl")) (descendants root)));
    reflexivity.
  - rewrite (parse_login_response_raised _ _ _ Hparse).
    destruct (isinstance e ParseError); reflexivity.
Qed.

(** The runs of [get_salesforce_session_id], by the answer to its request. *)
Lemma get_salesforce_session_id_run (w : World) (u p t : string) (sb : bool) :
  get_salesforce_session_id w u p t sb =
  match requests_post w (login_url sb) (soap_body u p t) login_headers 30 with
  | Raise e => login_handler [login_request u p t sb] e
  | Ret response =>
      let status := Requests.status_code response in
      let seen :=
        [login_request u p t sb;
         Print ("Response Status: " ++ str_of_int status);
         Print ("Response Body: " ++ slice_to (Requests.text response) 500 ++ "...")] in
      if (status =? 200)%Z
      then match parse_login_response w (Requests.text response) with
           | (tr, Ret v) => ((seen ++ tr)%list, Ret v)
           | (tr, Raise e) => login_handler (seen ++ tr) e
           end
      else ((seen ++ [Print ("Login failed with status " ++ str_of_int status)])%list,
            Ret (None, None))
  end.
Proof.
  unfold get_salesforce_session_id, http_post, login_request, login_handler. cbv zeta.
  destruct (requests_post w (login_url sb) (soap_body u p t) login_headers 30)
    as [response | e].
  - unfold mbind, M_bind, print, try_except.
    destruct (Requests.status_code response =? 200)%Z.
    + destruct (parse_login_response w (Requests.text response)) as [tr [v | e]].
      * reflexivity.
      * destruct (isinstance e Exception); reflexivity.
    + reflexivity.
  - unfold mbind, M_bind, try_except. destruct (isinstance e Exception); reflexivity.
Qed.

Lemma login_handler_trace (tr : list event) (e : exn) :
  exists lines,
    trace (login_handler tr e) = (tr ++ lines)%list /\ forallb is_print lines = true.
Proof.
  unfold login_handler. destruct (isinstance e Exception).
  - eexists. split; reflexivity.
  - exists []. split; [symmetry; apply app_nil_r | reflexivity].
Qed.

(** Case analysis on the answer to the login request. *)
Ltac case_post :=
  match goal with
  | |- context [requests_post ?w ?url ?data ?headers ?timeout] =>
      destruct (requests_post w url data headers timeout) as [response | e]
  end.

Lemma get_salesforce_session_id_posts (w : World) (u p t : string) (sb : bool) :
  posts (trace (get_salesforce_session_id w u p t sb)) = [login_request u p t sb].
Proof.
  rewrite get_salesforce_session_id_run.
  case_post.
  - cbv zeta. destruct (Requests.status_code response =? 200)%Z; [|reflexivity].
    pose proof (parse_login_response_no_post w (Requests.text response)) as Hnone.
    destruct (parse_login_response w (Requests.text response)) as [tr [v | e]];
      unfold trace in Hnone; simpl fst in Hnone.
    + unfold trace. simpl fst.
      change (login_request u p t sb :: posts tr = [login_request u p t sb]).
      rewrite Hnone. reflexivity.
    + destruct (login_handler_trace
                  ([login_request u p t sb;
                    Print ("Response Status: " ++ str_of_int (Requests.status_code response));
                    Print ("Response Body: " ++ slice_to (Requests.text response) 500
                           ++ "...")] ++ tr) e) as (lines & -> & Hlines).
      rewrite !posts_app, Hnone, (posts_print_only lines Hlines). reflexivity.
  - destruct (login_handler_trace [login_request u p t sb] e) as (lines & -> & Hlines).
    rewrite posts_app, (posts_print_only lines Hlines). reflexivity.
Qed.

(** C5.  When the POST answers with a status other than 200, or raises
    an instance of [Exception] (as the network failures and the timeout
    after 30 seconds are), [get_salesforce_session_id] returns
    [(None, None)], raises nothing, and has sent exactly one request: there
    is no retry. *)
Theorem get_salesforce_session_id_transport_failure (w : World)
    (u p t : string) (sb : bool) :
  match requests_post w (login_url sb) (soap_body u p t) login_headers 30 with
  | Ret response => Requests.status_code response <> 200%Z
  | Raise e => isinstance e Exception = true
  end ->
  result (get_salesforce_session_id w u p t sb) = Ret (None, None)
  /\ posts (trace (get_salesforce_session_id w u p t sb))
     = [HttpPost (login_url sb) (soap_body u p t) login_headers 30].
Proof.
  intros Hfail. split; [|apply get_salesforce_session_id_posts].
  rewrite get_salesforce_session_id_run.
  case_post.
  - cbv zeta. apply Z.eqb_neq in Hfail. rewrite Hfail. reflexivity.
  - unfold login_handler. rewrite Hfail. reflexivity.
Qed.

Lemma get_salesforce_session_id_transport_failure_witness :
  (result (get_salesforce_session_id
             (mock_world (Ret (http_response 500 "Internal Server Error")) unreachable)
             "USER" "PASS" "TOKEN" true) = Ret (None, None)
   /\ posts (trace (get_salesforce_session_id
                      (mock_world (Ret (http_response 500 "Internal Server Error")) unreachable)
                      "USER" "PASS" "TOKEN" true))
      = [HttpPost (login_url true) (soap_body "USER" "PASS" "TOKEN") login_headers 30])
  /\ (result (get_salesforce_session_id
                (mock_world (Raise (Exn Timeout "Read timed out. (read timeout=30)")) unreachable)
                "USER" "PASS" "TOKEN" false) = Ret (None, None)
      /\ posts (trace (get_salesforce_session_id
                         (mock_world (Raise (Exn Timeout "Read timed out. (read timeout=30)")) unreachable)
                         "USER" "PASS" "TOKEN" false))
         = [HttpPost (login_url false) (soap_body "USER" "PASS" "TOKEN") login_headers 30]).
Proof.
  split.
  - apply (get_salesforce_session_id_transport_failure
             (mock_world (Ret (http_response 500 "Internal Server Error")) unreachable)
             "USER" "PASS" "TOKEN" true).
    simpl. lia.
  - apply (get_salesforce_session_id_transport_failure
             (mock_world (Raise (Exn Timeout "Read timed out. (read timeout=30)")) unreachable)
             "USER" "PASS" "TOKEN" false).
    reflexivity.
Defined.

(** C6.  With [is_sandbox] true the request goes to the sandbox endpoint,
    with [is_sandbox] false to the production endpoint, whatever the
    credentials. *)
Theorem get_salesforce_session_id_endpoint (w : World) (u p t : string) :
  posts (trace (get_salesforce_session_id w u p t true))
  = [HttpPost "https://mysandbox.my.salesforce.com/services/Soap/u/60.0"
       (soap_body u p t) login_headers 30]
  /\ posts (trace (get_salesforce_session_id w u p t false))
     = [HttpPost "https://login.salesforce.com/services/Soap/u/60.0"
          (soap_body u p t) login_headers 30].
Proof. split; apply get_salesforce_session_id_posts. Qed.

Lemma append_cons (x : ascii) (a b : string) : String x a ++ b = String x (a ++ b).
Proof. reflexivity. Qed.

Lemma append_assoc (a b c : string) : (a ++ b) ++ c = a ++ b ++ c.
Proof.
  induction a as [|x a IH]; [reflexivity|]. rewrite !append_cons, IH. reflexivity.
Qed.

Lemma append_nil_r (a : string) : a ++ EmptyString = a.
Proof.
  induction a as [|x a IH]; [reflexivity|]. rewrite append_cons, IH. reflexivity.
Qed.

(** C8.  The body of the request is the fixed envelope with two fields:
    the username, and the password followed by the security token, both as
    given (nothing is escaped). *)
Theorem soap_body_template (w : World) (u p t : string) (sb : bool) :
  soap_body u p t
  = envelope_head ++ u ++ envelope_middle ++ (p ++ t) ++ envelope_tail
  /\ posts (trace (get_salesforce_session_id w u p t sb))
     = [HttpPost (login_url sb)
          (envelope_head ++ u ++ envelope_middle ++ (p ++ t) ++ envelope_tail)
          login_headers 30].
Proof.
  assert (Hbody : soap_body u p t
                  = envelope_head ++ u ++ envelope_middle ++ (p ++ t) ++ envelope_tail).
  { unfold soap_body, fstring. cbn [map String.concat].
    change (EmptyString ++ ?x) with x.
    rewrite (append_assoc p t). reflexivity. }
  split; [exact Hbody|].
  rewrite get_salesforce_session_id_posts. unfold login_request. rewrite Hbody.
  reflexivity.
Qed.

(** With plain credentials the envelope is well-formed and carries them in
    its two fields. *)
Example soap_body_plain :
  (fun root =>
     (ET.text <$> head (ET.iterfind_descendant root "{urn:partner.soap.sforce.com}username"),
      ET.text <$> head (ET.iterfind_descendant root "{urn:partner.soap.sforce.com}password")))
    <$> (match XmlRef.fromstring (soap_body "USER" "PASS" "TOKEN") with
         | Ret root => Some root
         | Raise _ => None
         end)
  = Some (Some (Some "USER"), Some (Some "PASSTOKEN")).
Proof. vm_compute. reflexivity. Qed.

(** A [<] in a credential goes into the envelope as it is, and the request
    is then not well-formed. *)
Example soap_body_unescaped :
  soap_body "a<b" "p" "t"
  = envelope_head ++ "a<b" ++ envelope_middle ++ "pt" ++ envelope_tail
  /\ XmlRef.fromstring (soap_body "a<b" "p" "t") = Raise XmlRef.parse_error.
Proof. split; vm_compute; reflexivity. Qed.

Lemma parse_login_response_raises_Exception (w : World) (xml : string) (e : exn) :
  Exception_only (ET_fromstring w xml) ->
  result (parse_login_response w xml) = Raise e ->
  isinstance e Exception = true.
Proof.
  intros Honly. destruct (ET_fromstring w xml) as [root | e0] eqn:Hparse.
  - rewrite (parse_login_response_parsed _ _ _ Hparse). unfold after_parse.
    destruct (head (List.filter (tagged (partner_tag "sessionId")) (descendants root)))
      as [[tg a [x|] tl cs]|];
    destruct (head (List.filter (tagged (partner_tag "serverUrl")) (descendants root)));
    try discriminate.
    all: intros [= <-]; reflexivity.
  - rewrite (parse_login_response_raised _ _ _ Hparse).
    destruct (isinstance e0 ParseError); [discriminate|].
    intros [= <-]. exact Honly.
Qed.

Lemma login_returns_pair (w : World) (u p t : string) (sb : bool) :
  Exception_only (requests_post w (login_url sb) (soap_body u p t) login_headers 30) ->
  (forall response,
     requests_post w (login_url sb) (soap_body u p t) login_headers 30 = Ret response ->
     Exception_only (ET_fromstring w (Requests.text response))) ->
  exists pair : option string * option string,
    result (get_salesforce_session_id w u p t sb) = Ret pair.
Proof.
  intros Hpost Hparse. rewrite get_salesforce_session_id_run.
  destruct (requests_post w (login_url sb) (soap_body u p t) login_headers 30)
    as [response | e].
  - cbv zeta. destruct (Requests.status_code response =? 200)%Z; [|eexists; reflexivity].
    pose proof (parse_login_response_raises_Exception w (Requests.text response))
      as Hexn.
    destruct (parse_login_response w (Requests.text response)) as [tr [v | e]].
    + eexists; reflexivity.
    + unfold login_handler. rewrite (Hexn e (Hparse response eq_refl) eq_refl).
      eexists; reflexivity.
  - unfold login_handler. simpl in Hpost. rewrite Hpost. eexists; reflexivity.
Qed.

(** C9 (amended).  Whatever the transport and the parser do, returning or
    raising an instance of [Exception] during the request or while the body
    of a 200 answer is parsed, [get_salesforce_session_id] returns a pair:
    every such exception, and the [TypeError] of the debug print, is taken
    by the handler of [Exception]. *)
Theorem get_salesforce_session_id_returns (w : World) (u p t : string) (sb : bool) :
  Exception_only (requests_post w (login_url sb) (soap_body u p t) login_headers 30) ->
  (forall response,
     requests_post w (login_url sb) (soap_body u p t) login_headers 30 = Ret response ->
     Exception_only (ET_fromstring w (Requests.text response))) ->
  exists pair : option string * option string,
    result (get_salesforce_session_id w u p t sb) = Ret pair.
Proof. apply login_returns_pair. Qed.

Lemma XmlRef_fromstring_Exception_only (xml : string) :
  Exception_only (XmlRef.fromstring xml).
Proof.
  unfold XmlRef.fromstring. destruct (XmlRef.tokens xml) as [ts|]; [|reflexivity].
  destruct (XmlRef.build _ [] None); [exact I | reflexivity].
Qed.

Lemma get_salesforce_session_id_returns_witness :
  exists pair : option string * option string,
    result (get_salesforce_session_id
              (mock_world (Ret (http_response 200 empty_id_doc)) unreachable)
              "USER" "PASS" "TOKEN" true) = Ret pair.
Proof.
  apply (get_salesforce_session_id_returns
           (mock_world (Ret (http_response 200 empty_id_doc)) unreachable)
           "USER" "PASS" "TOKEN" true).
  - exact I.
  - intros response _. apply XmlRef_fromstring_Exception_only.
Defined.

(** C9 as stated fails: a [KeyboardInterrupt] raised while the request is
    under way is not an instance of [Exception]; the handler does not take
    it and it reaches the caller. *)
Lemma get_salesforce_session_id_interrupted :
  requests_post (mock_world interrupted unreachable)
    (login_url true) (soap_body "USER" "PASS" "TOKEN") login_headers 30
  = Raise interrupt
  /\ isinstance interrupt Exception = false
  /\ result (get_salesforce_session_id (mock_world interrupted unreachable)
               "USER" "PASS" "TOKEN" true) = Raise interrupt.
Proof.
  split; [reflexivity|]. split; [reflexivity|]. vm_compute. reflexivity.
Qed.

(** The scenario of a successful login: status 200 and a response with
    [sessionId] [ABC123]. *)
Example get_salesforce_session_id_success :
  result (get_salesforce_session_id
            (mock_world
               (Ret (http_response 200
                       (login_response_body "ABC123"
                          "https://x.my.salesforce.com/services/Soap/u/60.0/00D")))
               unreachable)
            "USER" "PASS" "TOKEN" false)
  = Ret (Some "ABC123", Some "https://x.my.salesforce.com/services/Soap/u/60.0/00D").
Proof. vm_compute. reflexivity. Qed.

(** ** The REST base URL *)

Lemma split_go_cons (sep : string) (c : ascii) (s cur : string) :
  split_go sep (String c s) 0 cur =
  if String.prefix sep (String c s)
  then cur :: split_go sep s (String.length sep - 1) EmptyString
  else split_go sep s 0 (cur ++ String c EmptyString).
Proof. reflexivity. Qed.

Lemma index_cons (sep : string) (c : ascii) (s : string) :
  index 0 sep (String c s) =
  if String.prefix sep (String c s) then Some 0
  else match index 0 sep s with Some n => Some (S n) | None => None end.
Proof. reflexivity. Qed.

Lemma prefix_before_cons (sep : string) (c : ascii) (s : string) :
  String.prefix sep (String c s) = false ->
  prefix_before sep (String c s) = String c (prefix_before sep s).
Proof.
  intros Hno. unfold prefix_before. rewrite index_cons, Hno.
  destruct (index 0 sep s); reflexivity.
Qed.

(** [prefix_before] cuts at the first occurrence: [sep] stands at the cut
    and at no earlier position. *)
Lemma prefix_before_first_occurrence (sep s : string) (n : nat) :
  index 0 sep s = Some n ->
  prefix_before sep s = substring 0 n s
  /\ substring n (String.length sep) s = sep
  /\ forall p, p < n -> substring p (String.length sep) s <> sep.
Proof.
  intros Hidx. unfold prefix_before. rewrite Hidx. split; [reflexivity|]. split.
  - exact (index_correct1 _ _ _ _ Hidx).
  - intros p Hp. apply (index_correct2 _ _ _ _ Hidx); lia.
Qed.

Lemma prefix_before_absent (sep s : string) :
  index 0 sep s = None -> prefix_before sep s = s.
Proof. intros Hidx. unfold prefix_before. rewrite Hidx. reflexivity. Qed.

(** The first piece of [s.split(sep)] is what precedes the first [sep]. *)
Lemma split_go_head (sep s cur : string) :
  sep <> EmptyString ->
  head (split_go sep s 0 cur) = Some (cur ++ prefix_before sep s).
Proof.
  intros Hsep. revert cur. induction s as [|c s IH]; intros cur.
  - destruct sep as [|a sep]; [contradiction|].
    simpl. rewrite append_nil_r. reflexivity.
  - rewrite split_go_cons.
    destruct (String.prefix sep (String c s)) eqn:Hpre.
    + unfold prefix_before. rewrite index_cons, Hpre. simpl.
      rewrite append_nil_r. reflexivity.
    + rewrite IH, (prefix_before_cons _ _ _ Hpre), append_assoc. reflexivity.
Qed.

Lemma rest_base_url_Some (s : string) :
  rest_base_url (Some s) = Ret (prefix_before "/services/" s ++ "/services/data/v60.0").
Proof.
  unfold rest_base_url, split, str_split, getitem.
  pose proof (split_go_head "/services/" s EmptyString) as Hhead.
  destruct (split_go "/services/" s 0 EmptyString) as [|piece pieces].
  - discriminate Hhead. discriminate.
  - simpl in Hhead. injection Hhead as ->; [|discriminate]. reflexivity.
Qed.

Lemma try_except_first_event {A B} (ev : event) (o : outcome A) (k : A -> M B)
    (cls : exn_class) (handler : exn -> M B) :
  exists rest, trace (try_except (([ev], o) ≫= k) cls handler) = ev :: rest.
Proof.
  unfold try_except, mbind, M_bind, trace. destruct o as [a | e].
  - destruct (k a) as [tr [b | e]]; simpl.
    + eexists; reflexivity.
    + destruct (isinstance e cls); [destruct (handler e)|]; eexists; reflexivity.
  - destruct (isinstance e cls); [destruct (handler e)|]; eexists; reflexivity.
Qed.

(** C7.  The REST base URL derived from a server URL is what precedes
    [/services/] in it, followed by [/services/data/v60.0];
    [test_rest_api_with_session], given a session id and a server URL that
    are not empty, sends its GET to that base followed by [/]; and for
    [https://acme.my.salesforce.com/services/Soap/u/60.0/00Dxx] the base is
    [https://acme.my.salesforce.com/services/data/v60.0]. *)
Theorem rest_base_url_derivation :
  (forall s : string,
     rest_base_url (Some s)
     = Ret (prefix_before "/services/" s ++ "/services/data/v60.0"))
  /\ (forall (w : World) (session_id server_url : string),
        truthy (Some session_id) = true ->
        truthy (Some server_url) = true ->
        exists headers rest,
          trace (test_rest_api_with_session w (Some session_id) (Some server_url))
          = HttpGet ((prefix_before "/services/" server_url ++ "/services/data/v60.0") ++ "/")
              headers :: rest)
  /\ rest_base_url (Some "https://acme.my.salesforce.com/services/Soap/u/60.0/00Dxx")
     = Ret "https://acme.my.salesforce.com/services/data/v60.0".
Proof.
  split; [exact rest_base_url_Some|]. split; [|vm_compute; reflexivity].
  intros w session_id server_url Hid Hurl.
  unfold test_rest_api_with_session. rewrite Hid, Hurl. cbn [negb orb].
  rewrite rest_base_url_Some, bind_lift_Ret. unfold http_get.
  eexists. apply try_except_first_event.
Qed.

Lemma rest_base_url_derivation_witness :
  exists headers rest,
    trace (test_rest_api_with_session offline (Some "ABC123")
             (Some "https://acme.my.salesforce.com/services/Soap/u/60.0/00Dxx"))
    = HttpGet "https://acme.my.salesforce.com/services/data/v60.0/" headers :: rest.
Proof.
  exact (proj1 (proj2 rest_base_url_derivation) offline "ABC123"
           "https://acme.my.salesforce.com/services/Soap/u/60.0/00Dxx"
           eq_refl eq_refl).
Defined.

(** ** Further properties of the login *)

Lemma get_salesforce_session_id_result (w : World) (u p t : string) (sb : bool) :
  result (get_salesforce_session_id w u p t sb) =
  match requests_post w (login_url sb) (soap_body u p t) login_headers 30 with
  | Raise e => if isinstance e Exception then Ret (None, None) else Raise e
  | Ret response =>
      if (Requests.status_code response =? 200)%Z
      then match result (parse_login_response w (Requests.text response)) with
           | Ret v => Ret v
           | Raise e => if isinstance e Exception then Ret (None, None) else Raise e
           end
      else Ret (None, None)
  end.
Proof.
  rewrite get_salesforce_session_id_run. unfold login_handler. case_post.
  - cbv zeta. destruct (Requests.status_code response =? 200)%Z; [|reflexivity].
    destruct (parse_login_response w (Requests.text response)) as [tr [v | e]];
      [reflexivity|].
    unfold result. cbn [snd]. destruct (isinstance e Exception); reflexivity.
  - destruct (isinstance e Exception); reflexivity.
Qed.

Lemma first_below_descendant (tg : string) (root e : ET.Element) :
  first_below tg root e -> descendant e root /\ ET.tag e = tg.
Proof.
  intros (before & after & Heq & Htag & _). split; [|exact Htag].
  apply in_descendants. rewrite Heq. apply in_or_app. right. left. reflexivity.
Qed.

Lemma parse_login_response_print_only (w : World) (xml : string) :
  forallb is_print (trace (parse_login_response w xml)) = true.
Proof.
  destruct (ET_fromstring w xml) as [root | e] eqn:Hparse.
  - rewrite (parse_login_response_parsed _ _ _ Hparse). unfold after_parse.
    destruct (head (List.filter (tagged (partner_tag "sessionId")) (descendants root)))
      as [[t a [x|] tl cs]|];
    destruct (head (List.filter (tagged (partner_tag "serverUrl")) (descendants root)));
    reflexivity.
  - rewrite (parse_login_response_raised _ _ _ Hparse).
    destruct (isinstance e ParseError); reflexivity.
Qed.

Lemma get_salesforce_session_id_shape (w : World) (u p t : string) (sb : bool) :
  exists rest,
    trace (get_salesforce_session_id w u p t sb) = login_request u p t sb :: rest
    /\ forallb is_print rest = true.
Proof.
  rewrite get_salesforce_session_id_run. case_post.
  - cbv zeta. destruct (Requests.status_code response =? 200)%Z.
    + pose proof (parse_login_response_print_only w (Requests.text response)) as Hpr.
      destruct (parse_login_response w (Requests.text response)) as [tr [v | e]];
        unfold trace in Hpr; simpl in Hpr.
      * eexists. split; [reflexivity|]. exact Hpr.
      * destruct (login_handler_trace
                    ([login_request u p t sb;
                      Print ("Response Status: "
                             ++ str_of_int (Requests.status_code response));
                      Print ("Response Body: "
                             ++ slice_to (Requests.text response) 500 ++ "...")] ++ tr) e)
          as (lines & -> & Hlines).
        eexists. split; [reflexivity|].
        change (forallb is_print (tr ++ lines) = true).
        apply forallb_is_print_app; [exact Hpr | exact Hlines].
    + eexists. split; reflexivity.
  - destruct (login_handler_trace [login_request u p t sb] e) as (lines & -> & Hlines).
    eexists. split; [reflexivity|]. exact Hlines.
Qed.

(** X1.  A 200 answer whose body parses, with first Partner-namespace
    [sessionId] of text [S] and first [serverUrl] of text [U] below the
    root, makes [get_salesforce_session_id] return [(S, U)]. *)
Theorem get_salesforce_session_id_success_pair (w : World) (u p t : string) (sb : bool)
    (response : Requests.Response) (root se ue : ET.Element) (S U : string) :
  requests_post w (login_url sb) (soap_body u p t) login_headers 30 = Ret response ->
  Requests.status_code response = 200%Z ->
  ET_fromstring w (Requests.text response) = Ret root ->
  first_below (partner_tag "sessionId") root se -> ET.text se = Some S ->
  first_below (partner_tag "serverUrl") root ue -> ET.text ue = Some U ->
  result (get_salesforce_session_id w u p t sb) = Ret (Some S, Some U).
Proof.
  intros Hpost Hstatus Hparse Hse HS Hue HU.
  rewrite get_salesforce_session_id_result, Hpost, Hstatus. cbn [Z.eqb Pos.eqb].
  rewrite (parse_login_response_parsed _ _ _ Hparse). unfold after_parse.
  apply first_below_head in Hse, Hue. rewrite Hse, Hue, HS, HU. reflexivity.
Qed.

Lemma get_salesforce_session_id_success_pair_witness :
  ET_fromstring success_world success_doc = Ret success_tree
  /\ first_below (partner_tag "sessionId") success_tree success_sessionId
  /\ first_below (partner_tag "serverUrl") success_tree success_serverUrl
  /\ result (get_salesforce_session_id success_world "USER" "PASS" "TOKEN" false)
     = Ret (Some "ABC123", Some success_url).
Proof.
  assert (Hparse : ET_fromstring success_world success_doc = Ret success_tree)
    by (vm_compute; reflexivity).
  assert (Hse : first_below (partner_tag "sessionId") success_tree success_sessionId)
    by (apply first_below_head; vm_compute; reflexivity).
  assert (Hue : first_below (partner_tag "serverUrl") success_tree success_serverUrl)
    by (apply first_below_head; vm_compute; reflexivity).
  split; [exact Hparse|]. split; [exact Hse|]. split; [exact Hue|].
  exact (get_salesforce_session_id_success_pair success_world "USER" "PASS" "TOKEN"
           false (http_response 200 success_doc) success_tree
           success_sessionId success_serverUrl "ABC123" success_url
           eq_refl eq_refl Hparse Hse eq_refl Hue eq_refl).
Defined.

(** X2.  On a 200 answer the result of [get_salesforce_session_id] is the
    result of [parse_login_response] on the body when that call returns,
    [(None, None)] when it raises an instance of [Exception], and the
    exception itself when it raises anything else. *)
Theorem get_salesforce_session_id_on_200 (w : World) (u p t : string) (sb : bool)
    (response : Requests.Response) :
  requests_post w (login_url sb) (soap_body u p t) login_headers 30 = Ret response ->
  Requests.status_code response = 200%Z ->
  result (get_salesforce_session_id w u p t sb) =
  match result (parse_login_response w (Requests.text response)) with
  | Ret v => Ret v
  | Raise e => if isinstance e Exception then Ret (None, None) else Raise e
  end.
Proof.
  intros Hpost Hstatus.
  rewrite get_salesforce_session_id_result, Hpost, Hstatus. reflexivity.
Qed.

Lemma get_salesforce_session_id_on_200_witness :
  result (get_salesforce_session_id
            (mock_world (Ret (http_response 200 empty_url_doc)) unreachable)
            "USER" "PASS" "TOKEN" true)
  = match result (parse_login_response
                    (mock_world (Ret (http_response 200 empty_url_doc)) unreachable)
                    empty_url_doc) with
    | Ret v => Ret v
    | Raise e => if isinstance e Exception then Ret (None, None) else Raise e
    end.
Proof.
  exact (get_salesforce_session_id_on_200
           (mock_world (Ret (http_response 200 empty_url_doc)) unreachable)
           "USER" "PASS" "TOKEN" true (http_response 200 empty_url_doc)
           eq_refl eq_refl).
Defined.

(** X3.  When [parse_login_response] raises an instance of [Exception] on
    the body of a 200 answer, [get_salesforce_session_id] returns
    [(None, None)] and the last line it prints reports the exception. *)
Theorem get_salesforce_session_id_reports_exception (w : World) (u p t : string)
    (sb : bool) (response : Requests.Response) (e : exn) :
  requests_post w (login_url sb) (soap_body u p t) login_headers 30 = Ret response ->
  Requests.status_code response = 200%Z ->
  result (parse_login_response w (Requests.text response)) = Raise e ->
  isinstance e Exception = true ->
  result (get_salesforce_session_id w u p t sb) = Ret (None, None)
  /\ last (trace (get_salesforce_session_id w u p t sb))
     = Some (Print ("Error during SOAP login: " ++ exn_str e)).
Proof.
  intros Hpost Hstatus Hraise Hexn.
  rewrite get_salesforce_session_id_run, Hpost. cbv zeta. rewrite Hstatus.
  cbn [Z.eqb Pos.eqb].
  destruct (parse_login_response w (Requests.text response)) as [tr [v | e']];
    unfold result in Hraise; simpl in Hraise; [discriminate|].
  injection Hraise as ->. unfold login_handler. rewrite Hexn.
  split; [reflexivity|].
  unfold trace. cbn [fst]. apply last_snoc.
Qed.

Lemma get_salesforce_session_id_reports_exception_witness :
  result (parse_login_response
            (mock_world (Ret (http_response 200 empty_id_doc)) unreachable) empty_id_doc)
  = Raise (Exn TypeError "'NoneType' object is not subscriptable")
  /\ result (get_salesforce_session_id
               (mock_world (Ret (http_response 200 empty_id_doc)) unreachable)
               "USER" "PASS" "TOKEN" true) = Ret (None, None)
  /\ last (trace (get_salesforce_session_id
                    (mock_world (Ret (http_response 200 empty_id_doc)) unreachable)
                    "USER" "PASS" "TOKEN" true))
     = Some (Print "Error during SOAP login: 'NoneType' object is not subscriptable").
Proof.
  assert (Hraise : result (parse_login_response
                             (mock_world (Ret (http_response 200 empty_id_doc)) unreachable)
                             empty_id_doc)
                   = Raise (Exn TypeError "'NoneType' object is not subscriptable"))
    by (vm_compute; reflexivity).
  split; [exact Hraise|].
  exact (get_salesforce_session_id_reports_exception
           (mock_world (Ret (http_response 200 empty_id_doc)) unreachable)
           "USER" "PASS" "TOKEN" true (http_response 200 empty_id_doc)
           (Exn TypeError "'NoneType' object is not subscriptable")
           eq_refl eq_refl Hraise eq_refl).
Defined.

(** ** Further properties of [parse_login_response] *)

Lemma after_parse_Some (root : ET.Element) (S : string) (b : option string) :
  result (after_parse root) = Ret (Some S, b) ->
  exists se ue,
    first_below (partner_tag "sessionId") root se /\ ET.text se = Some S
    /\ first_below (partner_tag "serverUrl") root ue /\ ET.text ue = b.
Proof.
  unfold after_parse.
  destruct (head (List.filter (tagged (partner_tag "sessionId")) (descendants root)))
    as [se|] eqn:Hse;
  destruct (head (List.filter (tagged (partner_tag "serverUrl")) (descendants root)))
    as [ue|] eqn:Hue; try discriminate.
  destruct (ET.text se) as [s|] eqn:Htext; [|discriminate].
  intros [= -> <-]. exists se, ue.
  split; [apply first_below_head; exact Hse|]. split; [exact Htext|].
  split; [apply first_below_head; exact Hue | reflexivity].
Qed.

Lemma parse_login_response_result_cases (w : World) (xml : string) :
  result (parse_login_response w xml) =
  match ET_fromstring w xml with
  | Ret root => result (after_parse root)
  | Raise e => if isinstance e ParseError then Ret (None, None) else Raise e
  end.
Proof.
  destruct (ET_fromstring w xml) as [root | e] eqn:Hparse.
  - rewrite (parse_login_response_parsed _ _ _ Hparse). reflexivity.
  - rewrite (parse_login_response_raised _ _ _ Hparse).
    destruct (isinstance e ParseError); reflexivity.
Qed.

Lemma after_parse_not_None_Some (root : ET.Element) (b : string) :
  result (after_parse root) <> Ret (None, Some b).
Proof.
  unfold after_parse.
  destruct (head (List.filter (tagged (partner_tag "sessionId")) (descendants root)))
    as [[t a [x|] tl cs]|];
  destruct (head (List.filter (tagged (partner_tag "serverUrl")) (descendants root)));
  discriminate.
Qed.

Lemma parse_login_response_not_None_Some (w : World) (xml b : string) :
  result (parse_login_response w xml) <> Ret (None, Some b).
Proof.
  rewrite parse_login_response_result_cases.
  destruct (ET_fromstring w xml) as [root | e].
  - apply after_parse_not_None_Some.
  - destruct (isinstance e ParseError); discriminate.
Qed.

(** X4.  A session id that [parse_login_response] returns is the text of a
    Partner-namespace [sessionId] element below the root of the parsed
    body, and the server URL returned with it is the text of a
    Partner-namespace [serverUrl] element below the root. *)
Theorem parse_login_response_sound (w : World) (xml : string) (root : ET.Element)
    (S : string) (b : option string) :
  ET_fromstring w xml = Ret root ->
  result (parse_login_response w xml) = Ret (Some S, b) ->
  exists se ue,
    descendant se root /\ ET.tag se = partner_tag "sessionId" /\ ET.text se = Some S
    /\ descendant ue root /\ ET.tag ue = partner_tag "serverUrl" /\ ET.text ue = b.
Proof.
  intros Hparse Hres. rewrite (parse_login_response_parsed _ _ _ Hparse) in Hres.
  destruct (after_parse_Some _ _ _ Hres) as (se & ue & Hse & HS & Hue & HU).
  apply first_below_descendant in Hse, Hue.
  exists se, ue. tauto.
Qed.

Lemma parse_login_response_sound_witness :
  exists se ue,
    descendant se login_tree /\ ET.tag se = partner_tag "sessionId"
    /\ ET.text se = Some " 00D!AQ "
    /\ descendant ue login_tree /\ ET.tag ue = partner_tag "serverUrl"
    /\ ET.text ue = Some " not a url ".
Proof.
  apply (parse_login_response_sound offline login_doc login_tree
           " 00D!AQ " (Some " not a url ")); vm_compute; reflexivity.
Defined.

(** X5.  Neither [parse_login_response] nor [get_salesforce_session_id]
    returns a pair with a server URL and no session id: when the session id
    is [None] the result is [(None, None)]. *)
Theorem session_id_None_without_server_url (w : World) :
  (forall xml b, result (parse_login_response w xml) <> Ret (None, Some b))
  /\ (forall u p t sb b,
        result (get_salesforce_session_id w u p t sb) <> Ret (None, Some b)).
Proof.
  split; [intros xml b; apply parse_login_response_not_None_Some|].
  intros u p t sb b. rewrite get_salesforce_session_id_result.
  case_post; [|destruct (isinstance e Exception); discriminate].
  destruct (Requests.status_code response =? 200)%Z; [|discriminate].
  pose proof (parse_login_response_not_None_Some w (Requests.text response) b) as Hno.
  destruct (result (parse_login_response w (Requests.text response))) as [v | e];
    [exact Hno | destruct (isinstance e Exception); discriminate].
Qed.

(** X6.  [parse_login_response] does no network traffic: every event of
    its trace is a console line. *)
Theorem parse_login_response_offline (w : World) (xml : string) :
  forallb is_print (trace (parse_login_response w xml)) = true
  /\ posts (trace (parse_login_response w xml)) = []
  /\ gets (trace (parse_login_response w xml)) = [].
Proof.
  pose proof (parse_login_response_print_only w xml) as Hpr.
  split; [exact Hpr|]. split; [apply posts_print_only | apply gets_print_only]; exact Hpr.
Qed.

(** X7.  An exception of the parser that is not a [ParseError] is not
    handled by [parse_login_response]: it reaches the caller unchanged and
    nothing is printed. *)
Theorem parse_login_response_propagates (w : World) (xml : string) (e : exn) :
  ET_fromstring w xml = Raise e ->
  isinstance e ParseError = false ->
  parse_login_response w xml = ([], Raise e).
Proof.
  intros Hparse Hcls.
  rewrite (parse_login_response_raised _ _ _ Hparse), Hcls. reflexivity.
Qed.

Lemma parse_login_response_propagates_witness :
  isinstance unencodable ParseError = false
  /\ parse_login_response surrogate_world "?" = ([], Raise unencodable).
Proof.
  split; [reflexivity|].
  exact (parse_login_response_propagates surrogate_world "?" unencodable
           eq_refl eq_refl).
Defined.

(** ** The login request *)

(** X8.  The login request carries exactly two headers,
    [Content-Type: text/xml; charset=UTF-8] and [SOAPAction: login], and a
    timeout of 30 seconds. *)
Theorem login_request_headers (w : World) (u p t : string) (sb : bool) :
  exists url data headers,
    posts (trace (get_salesforce_session_id w u p t sb))
    = [HttpPost url data headers 30]
    /\ headers !! "Content-Type" = Some "text/xml; charset=UTF-8"
    /\ headers !! "SOAPAction" = Some "login"
    /\ size headers = 2.
Proof.
  exists (login_url sb), (soap_body u p t), login_headers.
  split; [apply get_salesforce_session_id_posts|].
  split; [reflexivity|]. split; [reflexivity|]. vm_compute. reflexivity.
Qed.

(** X9.  The login request is the first event of
    [get_salesforce_session_id] and its only network operation: what
    follows are console lines, so there is no second POST and no GET. *)
Theorem get_salesforce_session_id_single_request (w : World) (u p t : string)
    (sb : bool) :
  exists rest,
    trace (get_salesforce_session_id w u p t sb)
    = HttpPost (login_url sb) (soap_body u p t) login_headers 30 :: rest
    /\ forallb is_print rest = true
    /\ gets (trace (get_salesforce_session_id w u p t sb)) = [].
Proof.
  destruct (get_salesforce_session_id_shape w u p t sb) as (rest & Heq & Hpr).
  exists rest. rewrite Heq. split; [reflexivity|]. split; [exact Hpr|].
  apply (gets_print_only rest Hpr).
Qed.

(** ** The REST probe *)

Lemma truthy_Some (v : option string) :
  truthy v = true -> exists s, v = Some s /\ s <> EmptyString.
Proof.
  destruct v as [[|c s]|]; try discriminate.
  intros _. exists (String c s). split; [reflexivity | discriminate].
Qed.

(** With both arguments present and not empty: one GET, then console
    lines; the call returns unless an exception that is not an [Exception]
    is raised by the request or by the reading of the JSON body. *)
Lemma test_rest_api_with_session_shape (w : World) (session_id server_url : string) :
  session_id <> EmptyString -> server_url <> EmptyString ->
  exists rest r,
    test_rest_api_with_session w (Some session_id) (Some server_url)
    = (probe_request session_id server_url :: rest, r)
    /\ forallb is_print rest = true
    /\ (match requests_get w
                ((prefix_before "/services/" server_url ++ "/services/data/v60.0") ++ "/")
                (probe_headers session_id) with
        | Ret response => Exception_only (Requests.json_len response)
        | Raise e => isinstance e Exception = true
        end -> r = Ret tt).
Proof.
  intros Hid Hurl. unfold test_rest_api_with_session, probe_request, probe_headers.
  destruct session_id as [|c1 s1]; [contradiction|].
  destruct server_url as [|c2 s2]; [contradiction|].
  cbn [truthy negb orb].
  rewrite rest_base_url_Some, bind_lift_Ret. unfold http_get, format_value.
  destruct (requests_get w
              ((prefix_before "/services/" (String c2 s2) ++ "/services/data/v60.0") ++ "/")
              {[ "Authorization" := "Bearer " ++ String c1 s1;
                 "Content-Type" := "application/json" ]}) as [response | e].
  - unfold mbind, M_bind, print, try_except, lift.
    destruct (Requests.status_code response =? 200)%Z.
    + destruct (Requests.json_len response) as [n | e].
      * eexists. eexists. split; [reflexivity|]. split; reflexivity.
      * destruct (isinstance e Exception) eqn:Hexn.
        -- eexists. eexists. split; [reflexivity|]. split; reflexivity.
        -- eexists. eexists. split; [reflexivity|]. split; [reflexivity|].
           simpl. congruence.
    + eexists. eexists. split; [reflexivity|]. split; reflexivity.
  - unfold mbind, M_bind, try_except. destruct (isinstance e Exception) eqn:Hexn.
    + eexists. eexists. split; [reflexivity|]. split; reflexivity.
    + eexists. eexists. split; [reflexivity|]. split; [reflexivity|]. congruence.
Qed.

Lemma test_rest_api_with_session_noop (w : World) (session_id server_url : option string) :
  truthy session_id && truthy server_url = false ->
  test_rest_api_with_session w session_id server_url
  = ([Print "No valid session to test with"], Ret tt).
Proof.
  intros Hnot. unfold test_rest_api_with_session.
  destruct (truthy session_id), (truthy server_url); try discriminate; reflexivity.
Qed.

Lemma test_rest_api_with_session_result (w : World) (session_id server_url : option string) :
  raises_Exceptions_only w ->
  result (test_rest_api_with_session w session_id server_url) = Ret tt.
Proof.
  intros (_ & _ & Hget).
  destruct (truthy session_id && truthy server_url) eqn:Hboth.
  - apply andb_prop in Hboth. destruct Hboth as [Hid Hurl].
    apply truthy_Some in Hid, Hurl.
    destruct Hid as (a & -> & Ha). destruct Hurl as (b & -> & Hb).
    destruct (test_rest_api_with_session_shape w a b Ha Hb) as (rest & r & -> & _ & Hr).
    unfold result. cbn [snd]. apply Hr. apply Hget.
  - rewrite (test_rest_api_with_session_noop _ _ _ Hboth). reflexivity.
Qed.

Lemma mock_world_raises_Exceptions_only (post_answer get_answer : outcome Requests.Response) :
  Exception_only post_answer ->
  match get_answer with
  | Ret response => Exception_only (Requests.json_len response)
  | Raise e => isinstance e Exception = true
  end ->
  raises_Exceptions_only (mock_world post_answer get_answer).
Proof.
  intros Hpost Hget. split; [|split].
  - intros xml. apply XmlRef_fromstring_Exception_only.
  - intros url data headers timeout. exact Hpost.
  - intros url headers. exact Hget.
Qed.

(** X10.  When the libraries raise instances of [Exception] only,
    [test_rest_api_with_session] does not raise: whatever the arguments
    and the answer of the transport (an exception, a status other than 200,
    a body that is not JSON), it returns. *)
Theorem test_rest_api_with_session_returns (w : World)
    (session_id server_url : option string) :
  raises_Exceptions_only w ->
  result (test_rest_api_with_session w session_id server_url) = Ret tt.
Proof. apply test_rest_api_with_session_result. Qed.

Lemma test_rest_api_with_session_returns_witness :
  raises_Exceptions_only
    (mock_world unreachable (Ret (http_response 200 "<html>not JSON</html>")))
  /\ result (test_rest_api_with_session
               (mock_world unreachable (Ret (http_response 200 "<html>not JSON</html>")))
               (Some "ABC123") (Some success_url)) = Ret tt.
Proof.
  assert (Honly : raises_Exceptions_only
                    (mock_world unreachable
                       (Ret (http_response 200 "<html>not JSON</html>"))))
    by (apply mock_world_raises_Exceptions_only; reflexivity).
  split; [exact Honly|].
  exact (test_rest_api_with_session_returns _ (Some "ABC123") (Some success_url) Honly).
Defined.

(** X11.  When the session id or the server URL is [None] or empty,
    [test_rest_api_with_session] sends nothing: it prints one line and
    returns. *)
Theorem test_rest_api_with_session_no_session (w : World)
    (session_id server_url : option string) :
  truthy session_id = false \/ truthy server_url = false ->
  trace (test_rest_api_with_session w session_id server_url)
  = [Print "No valid session to test with"]
  /\ gets (trace (test_rest_api_with_session w session_id server_url)) = []
  /\ posts (trace (test_rest_api_with_session w session_id server_url)) = [].
Proof.
  intros Hnot.
  rewrite test_rest_api_with_session_noop; [repeat split|].
  destruct Hnot as [-> | ->]; [reflexivity | apply andb_false_r].
Qed.

Lemma test_rest_api_with_session_no_session_witness :
  (trace (test_rest_api_with_session success_world (Some "ABC123") None)
   = [Print "No valid session to test with"]
   /\ gets (trace (test_rest_api_with_session success_world (Some "ABC123") None)) = []
   /\ posts (trace (test_rest_api_with_session success_world (Some "ABC123") None)) = [])
  /\ (trace (test_rest_api_with_session success_world (Some EmptyString) (Some success_url))
      = [Print "No valid session to test with"]
      /\ gets (trace (test_rest_api_with_session success_world (Some EmptyString)
                        (Some success_url))) = []
      /\ posts (trace (test_rest_api_with_session success_world (Some EmptyString)
                         (Some success_url))) = []).
Proof.
  split.
  - exact (test_rest_api_with_session_no_session success_world (Some "ABC123") None
             (or_intror eq_refl)).
  - exact (test_rest_api_with_session_no_session success_world (Some EmptyString)
             (Some success_url) (or_introl eq_refl)).
Defined.

(** X12.  With a session id and a server URL that are not empty,
    [test_rest_api_with_session] sends exactly one GET, first of all, with
    the header [Authorization: Bearer] followed by the session id and
    [Content-Type: application/json]; it sends no POST. *)
Theorem test_rest_api_with_session_request (w : World) (session_id server_url : string) :
  session_id <> EmptyString -> server_url <> EmptyString ->
  exists url headers rest,
    trace (test_rest_api_with_session w (Some session_id) (Some server_url))
    = HttpGet url headers :: rest
    /\ headers !! "Authorization" = Some ("Bearer " ++ session_id)
    /\ headers !! "Content-Type" = Some "application/json"
    /\ size headers = 2
    /\ gets (trace (test_rest_api_with_session w (Some session_id) (Some server_url)))
       = [HttpGet url headers]
    /\ posts (trace (test_rest_api_with_session w (Some session_id) (Some server_url)))
       = [].
Proof.
  intros Hid Hurl.
  destruct (test_rest_api_with_session_shape w session_id server_url Hid Hurl)
    as (rest & r & Heq & Hpr & _).
  exists ((prefix_before "/services/" server_url ++ "/services/data/v60.0") ++ "/"),
    (probe_headers session_id), rest.
  rewrite Heq. unfold trace. cbn [fst]. split; [reflexivity|].
  split; [reflexivity|]. split; [reflexivity|].
  split; [vm_compute; reflexivity|].
  split.
  - change (probe_request session_id server_url :: gets rest
            = [probe_request session_id server_url]).
    rewrite (gets_print_only rest Hpr). reflexivity.
  - change (posts rest = []). apply (posts_print_only rest Hpr).
Qed.

Lemma test_rest_api_with_session_request_witness :
  exists url headers rest,
    trace (test_rest_api_with_session success_world (Some "ABC123") (Some success_url))
    = HttpGet url headers :: rest
    /\ headers !! "Authorization" = Some "Bearer ABC123"
    /\ headers !! "Content-Type" = Some "application/json"
    /\ size headers = 2
    /\ gets (trace (test_rest_api_with_session success_world (Some "ABC123")
                      (Some success_url)))
       = [HttpGet url headers]
    /\ posts (trace (test_rest_api_with_session success_world (Some "ABC123")
                       (Some success_url)))
       = [].
Proof.
  apply (test_rest_api_with_session_request success_world "ABC123" success_url);
    discriminate.
Defined.

(** ** The pieces of a server URL *)

Lemma prefix_before_decompose (sep s : string) :
  exists rest,
    s = prefix_before sep s ++ rest
    /\ (rest = EmptyString \/ String.prefix sep rest = true).
Proof.
  induction s as [|c s IH].
  - exists EmptyString. split; [|left; reflexivity].
    unfold prefix_before. destruct sep; reflexivity.
  - destruct (String.prefix sep (String c s)) eqn:Hpre.
    + exists (String c s). split; [|right; exact Hpre].
      unfold prefix_before. rewrite index_cons, Hpre. reflexivity.
    + destruct IH as (rest & Heq & Hrest). exists rest.
      rewrite (prefix_before_cons _ _ _ Hpre), append_cons, <- Heq.
      split; [reflexivity | exact Hrest].
Qed.

(** X13.  The REST base URL keeps the beginning of the server URL: the
    server URL is the stem of the base followed by a rest that is empty or
    begins with [/services/], and the base is that stem followed by
    [/services/data/v60.0]. *)
Theorem rest_base_url_stem (server_url : string) :
  exists stem rest,
    rest_base_url (Some server_url) = Ret (stem ++ "/services/data/v60.0")
    /\ server_url = stem ++ rest
    /\ (rest = EmptyString \/ String.prefix "/services/" rest = true).
Proof.
  destruct (prefix_before_decompose "/services/" server_url) as (rest & Heq & Hrest).
  exists (prefix_before "/services/" server_url), rest.
  split; [apply rest_base_url_Some|]. split; [exact Heq | exact Hrest].
Qed.

Lemma prefix_true_decompose (sep s : string) :
  String.prefix sep s = true -> exists q, s = sep ++ q.
Proof.
  revert s. induction sep as [|a sep IH]; intros s Hpre.
  - exists s. reflexivity.
  - destruct s as [|b s]; [discriminate|]. simpl in Hpre.
    destruct (ascii_dec a b) as [Hab | _]; [|discriminate].
    destruct (IH s Hpre) as (q & Hq). exists q. rewrite Hab, Hq. reflexivity.
Qed.

Lemma split_go_skip (sep t q cur : string) :
  split_go sep (t ++ q) (String.length t) cur = split_go sep q 0 cur.
Proof.
  induction t as [|a t IH]; [reflexivity|].
  rewrite append_cons. simpl. exact IH.
Qed.

Lemma split_go_nonempty (sep s : string) (skip : nat) (cur : string) :
  split_go sep s skip cur <> [].
Proof.
  revert skip cur. induction s as [|c s IH]; intros skip cur; [discriminate|].
  destruct skip as [|k]; [|simpl; apply IH].
  rewrite split_go_cons.
  destruct (String.prefix sep (String c s)); [discriminate | apply IH].
Qed.

Lemma concat_cons (sep x : string) (xs : list string) :
  xs <> [] -> String.concat sep (x :: xs) = x ++ sep ++ String.concat sep xs.
Proof. destruct xs; [contradiction | reflexivity]. Qed.

Lemma length_append (a b : string) :
  String.length (a ++ b) = String.length a + String.length b.
Proof.
  induction a as [|x a IH]; [reflexivity|]. rewrite append_cons. simpl.
  rewrite IH. reflexivity.
Qed.

Lemma split_go_join (sep : string) (n : nat) :
  sep <> EmptyString ->
  forall s cur, String.length s <= n ->
    String.concat sep (split_go sep s 0 cur) = cur ++ s.
Proof.
  intros Hsep. induction n as [|n IH]; intros s cur Hlen.
  - destruct s; [|simpl in Hlen; lia]. simpl. rewrite append_nil_r. reflexivity.
  - destruct s as [|c s]; [simpl; rewrite append_nil_r; reflexivity|].
    rewrite split_go_cons. destruct (String.prefix sep (String c s)) eqn:Hpre.
    + destruct (prefix_true_decompose _ _ Hpre) as (q & Hq).
      destruct sep as [|a sep']; [contradiction|].
      rewrite append_cons in Hq. injection Hq as -> ->.
      replace (String.length (String a sep') - 1) with (String.length sep')
        by (simpl; lia).
      rewrite split_go_skip, concat_cons by apply split_go_nonempty.
      rewrite IH.
      * rewrite append_cons. reflexivity.
      * simpl in Hlen. rewrite length_append in Hlen. lia.
    + rewrite IH by (simpl in Hlen; lia).
      rewrite append_assoc. reflexivity.
Qed.

(** X14.  Splitting and joining are inverse: for a separator that is not
    empty, joining the pieces of [s.split(sep)] with [sep] gives [s] back,
    and there is always at least one piece (so [[0]] cannot fail). *)
Theorem str_split_join (s sep : string) (pieces : list string) :
  str_split s sep = Ret pieces ->
  String.concat sep pieces = s /\ pieces <> [].
Proof.
  unfold str_split. destruct sep as [|a sep'] eqn:Hsep; [discriminate|].
  intros [= <-]. split; [|apply split_go_nonempty].
  apply (split_go_join (String a sep') (String.length s)); [discriminate | lia].
Qed.

Lemma str_split_join_witness :
  str_split "https://acme.my.salesforce.com/services/Soap/u/60.0/00Dxx" "/services/"
  = Ret ["https://acme.my.salesforce.com"; "Soap/u/60.0/00Dxx"]
  /\ String.concat "/services/" ["https://acme.my.salesforce.com"; "Soap/u/60.0/00Dxx"]
     = "https://acme.my.salesforce.com/services/Soap/u/60.0/00Dxx"
  /\ ["https://acme.my.salesforce.com"; "Soap/u/60.0/00Dxx"] <> [].
Proof.
  assert (Hsplit : str_split "https://acme.my.salesforce.com/services/Soap/u/60.0/00Dxx"
                     "/services/"
                   = Ret ["https://acme.my.salesforce.com"; "Soap/u/60.0/00Dxx"])
    by (vm_compute; reflexivity).
  split; [exact Hsplit|].
  exact (str_split_join _ _ _ Hsplit).
Defined.

(** ** The envelope and its fields *)

Lemma soap_body_fields (u p t : string) :
  soap_body u p t
  = envelope_head ++ u ++ envelope_middle ++ (p ++ t) ++ envelope_tail.
Proof.
  unfold soap_body, fstring. cbn [map String.concat].
  change (EmptyString ++ ?x) with x.
  rewrite (append_assoc p t). reflexivity.
Qed.

(** X15.  The envelope depends on the password and the security token
    only through their concatenation: two pairs with the same
    concatenation give the same request body. *)
Theorem soap_body_password_token (u p t p' t' : string) :
  p ++ t = p' ++ t' -> soap_body u p t = soap_body u p' t'.
Proof. intros Heq. rewrite !soap_body_fields, Heq. reflexivity. Qed.

Lemma soap_body_password_token_witness :
  soap_body "USER" "PASS" "TOKEN" = soap_body "USER" "PASSTOKEN" EmptyString.
Proof.
  exact (soap_body_password_token "USER" "PASS" "TOKEN" "PASSTOKEN" EmptyString
           eq_refl).
Defined.

(** X16.  Credentials are not escaped, so the fields of the envelope are
    not delimited: a username that contains the text standing between the
    two fields gives the same request body as the shorter username with
    the remainder moved into the password. *)
Theorem soap_body_field_injection (a b p t : string) :
  soap_body (a ++ envelope_middle ++ b) p t
  = soap_body a (b ++ envelope_middle ++ p) t.
Proof.
  rewrite !soap_body_fields, !append_assoc. reflexivity.
Qed.

(** ** The script run as a program *)

Lemma gets_app (tr1 tr2 : list event) : gets (tr1 ++ tr2) = (gets tr1 ++ gets tr2)%list.
Proof. apply List.filter_app. Qed.

Lemma get_salesforce_session_id_gets (w : World) (u p t : string) (sb : bool) :
  gets (trace (get_salesforce_session_id w u p t sb)) = [].
Proof.
  destruct (get_salesforce_session_id_shape w u p t sb) as (rest & -> & Hpr).
  apply (gets_print_only rest Hpr).
Qed.

Lemma test_rest_api_with_session_posts (w : World) (session_id server_url : option string) :
  posts (trace (test_rest_api_with_session w session_id server_url)) = [].
Proof.
  destruct (truthy session_id && truthy server_url) eqn:Hboth.
  - apply andb_prop in Hboth. destruct Hboth as [Hid Hurl].
    apply truthy_Some in Hid, Hurl.
    destruct Hid as (a & -> & Ha). destruct Hurl as (b & -> & Hb).
    destruct (test_rest_api_with_session_shape w a b Ha Hb) as (rest & r & -> & Hpr & _).
    apply (posts_print_only rest Hpr).
  - rewrite (test_rest_api_with_session_noop _ _ _ Hboth). reflexivity.
Qed.

Lemma test_rest_api_with_session_gets (w : World) (session_id server_url : option string) :
  gets (trace (test_rest_api_with_session w session_id server_url)) =
  match session_id, server_url with
  | Some a, Some b =>
      if truthy session_id && truthy server_url then [probe_request a b] else []
  | _, _ => []
  end.
Proof.
  destruct (truthy session_id && truthy server_url) eqn:Hboth.
  - apply andb_prop in Hboth. destruct Hboth as [Hid Hurl].
    apply truthy_Some in Hid, Hurl.
    destruct Hid as (a & -> & Ha). destruct Hurl as (b & -> & Hb).
    destruct (test_rest_api_with_session_shape w a b Ha Hb) as (rest & r & -> & Hpr & _).
    change (probe_request a b :: gets rest = [probe_request a b]).
    rewrite (gets_print_only rest Hpr). reflexivity.
  - rewrite (test_rest_api_with_session_noop _ _ _ Hboth).
    destruct session_id, server_url; reflexivity.
Qed.

Lemma posts_cons_print (line : string) (tr : list event) :
  posts (Print line :: tr) = posts tr.
Proof. reflexivity. Qed.

Lemma gets_cons_print (line : string) (tr : list event) :
  gets (Print line :: tr) = gets tr.
Proof. reflexivity. Qed.

(** The events of the program: the first line, the events of the login,
    then events among which the only requests are those of the probe, run
    when the login returned a session id that is not empty. *)
Lemma main_trace (w : World) :
  exists extra,
    trace (main w)
    = Print "Attempting SOAP login to Salesforce..."
        :: (trace (get_salesforce_session_id w USERNAME PASSWORD SECURITY_TOKEN IS_SANDBOX)
            ++ extra)%list
    /\ posts extra = []
    /\ gets extra =
       match result (get_salesforce_session_id w USERNAME PASSWORD SECURITY_TOKEN
                       IS_SANDBOX) with
       | Ret (a, b) =>
           if truthy a then gets (trace (test_rest_api_with_session w a b)) else []
       | Raise _ => []
       end.
Proof.
  unfold main.
  destruct (get_salesforce_session_id w USERNAME PASSWORD SECURITY_TOKEN IS_SANDBOX)
    as [tr [[a b] | e]].
  - unfold mbind, M_bind, print, trace, result. cbn [fst snd].
    destruct (truthy a).
    + pose proof (test_rest_api_with_session_posts w a b) as Hposts.
      destruct (test_rest_api_with_session w a b) as [tr2 [[] | e2]];
        unfold trace in Hposts; cbn [fst] in Hposts; cbn [fst snd].
      * eexists. split; [reflexivity|].
        rewrite !posts_app, !gets_app, Hposts.
        split; [reflexivity|].
        cbn [gets List.filter is_get app]. apply app_nil_r.
      * eexists. split; [reflexivity|].
        rewrite posts_app, gets_app, Hposts.
        split; reflexivity.
    + eexists. split; [reflexivity|]. split; reflexivity.
  - exists []. unfold mbind, M_bind, print, trace, result. cbn [fst snd].
    split; [rewrite app_nil_r; reflexivity|]. split; reflexivity.
Qed.

(** The run after a login that returned a session id, when the probe
    returns. *)
Lemma main_logged_in (w : World) (tr : list event) (session_id : string)
    (server_url : option string) :
  get_salesforce_session_id w USERNAME PASSWORD SECURITY_TOKEN IS_SANDBOX
  = (tr, Ret (Some session_id, server_url)) ->
  session_id <> EmptyString ->
  result (test_rest_api_with_session w (Some session_id) server_url) = Ret tt ->
  exists line rest,
    main w = (Print "Attempting SOAP login to Salesforce..."
                :: (tr ++ Print line
                      :: (trace (test_rest_api_with_session w (Some session_id) server_url)
                          ++ rest))%list,
              Ret tt)
    /\ forallb is_print rest = true
    /\ In (Print ("Session ID: " ++ session_id)) rest
    /\ In (Print ("Authorization header: Bearer " ++ session_id)) rest.
Proof.
  intros Hlogin Hid Hres. unfold main. rewrite Hlogin.
  destruct session_id as [|c s]; [contradiction|].
  unfold mbind, M_bind, print. cbn [truthy format_value].
  destruct (test_rest_api_with_session w (Some (String c s)) server_url) as [tr2 r2].
  unfold result in Hres. cbn [snd] in Hres. rewrite Hres. unfold trace. cbn [fst].
  eexists. eexists. split; [reflexivity|]. split; [reflexivity|].
  split; [right; left; reflexivity | right; right; left; reflexivity].
Qed.





(** X18.  The program logs in exactly once, at the sandbox endpoint, with
    the username [USER] and the password [PASS] followed by the token
    [TOKEN]; no other POST is sent, whether or not the REST probe runs. *)
Theorem main_single_login (w : World) :
  posts (trace (main w))
  = [HttpPost "https://mysandbox.my.salesforce.com/services/Soap/u/60.0"
       (envelope_head ++ "USER" ++ envelope_middle ++ "PASSTOKEN" ++ envelope_tail)
       login_headers 30].
Proof.
  destruct (main_trace w) as (extra & -> & Hposts & _).
  rewrite posts_cons_print, posts_app, Hposts, get_salesforce_session_id_posts.
  vm_compute. reflexivity.
Qed.

Lemma main_gets (w : World) :
  gets (trace (main w)) =
  match result (get_salesforce_session_id w USERNAME PASSWORD SECURITY_TOKEN
                  IS_SANDBOX) with
  | Ret (a, b) => if truthy a then gets (trace (test_rest_api_with_session w a b)) else []
  | Raise _ => []
  end.
Proof.
  destruct (main_trace w) as (extra & -> & _ & Hgets).
  rewrite gets_cons_print, gets_app, get_salesforce_session_id_gets. exact Hgets.
Qed.

(** X19.  When the login returns a session id and a server URL that are
    not empty, the program sends exactly one GET: the REST probe for that
    server URL, authorised with that session id. *)
Theorem main_probe_after_login (w : World) (session_id server_url : string) :
  result (get_salesforce_session_id w USERNAME PASSWORD SECURITY_TOKEN IS_SANDBOX)
  = Ret (Some session_id, Some server_url) ->
  session_id <> EmptyString -> server_url <> EmptyString ->
  gets (trace (main w))
  = [HttpGet ((prefix_before "/services/" server_url ++ "/services/data/v60.0") ++ "/")
       (probe_headers session_id)].
Proof.
  intros Hres Hid Hurl.
  rewrite main_gets, Hres, test_rest_api_with_session_gets.
  destruct session_id; [contradiction|]. destruct server_url; [contradiction|].
  reflexivity.
Qed.

Lemma main_probe_after_login_witness :
  result (get_salesforce_session_id success_world USERNAME PASSWORD SECURITY_TOKEN
            IS_SANDBOX)
  = Ret (Some "ABC123", Some success_url)
  /\ gets (trace (main success_world))
     = [HttpGet "https://x.my.salesforce.com/services/data/v60.0/"
          (probe_headers "ABC123")].
Proof.
  assert (Hres : result (get_salesforce_session_id success_world USERNAME PASSWORD
                           SECURITY_TOKEN IS_SANDBOX)
                 = Ret (Some "ABC123", Some success_url))
    by (vm_compute; reflexivity).
  split; [exact Hres|].
  refine (main_probe_after_login success_world "ABC123" success_url Hres _ _);
    discriminate.
Defined.

(** X20.  When the login returns no session id, an empty one, or no server
    URL, the program sends no GET. *)
Theorem main_no_probe (w : World) (session_id server_url : option string) :
  result (get_salesforce_session_id w USERNAME PASSWORD SECURITY_TOKEN IS_SANDBOX)
  = Ret (session_id, server_url) ->
  truthy session_id = false \/ truthy server_url = false ->
  gets (trace (main w)) = [].
Proof.
  intros Hres Hnot.
  rewrite main_gets, Hres, test_rest_api_with_session_gets.
  destruct Hnot as [-> | Hb]; [reflexivity|].
  rewrite Hb, andb_false_r. destruct (truthy session_id), session_id, server_url;
    reflexivity.
Qed.

Lemma main_no_probe_witness :
  (result (get_salesforce_session_id
             (mock_world (Ret (http_response 500 "Internal Server Error")) unreachable)
             USERNAME PASSWORD SECURITY_TOKEN IS_SANDBOX) = Ret (None, None)
   /\ gets (trace (main (mock_world (Ret (http_response 500 "Internal Server Error"))
                          unreachable))) = [])
  /\ (result (get_salesforce_session_id
                (mock_world (Ret (http_response 200 empty_url_doc)) unreachable)
                USERNAME PASSWORD SECURITY_TOKEN IS_SANDBOX) = Ret (Some "abc", None)
      /\ gets (trace (main (mock_world (Ret (http_response 200 empty_url_doc))
                             unreachable))) = []).
Proof.
  split.
  - assert (Hres : result (get_salesforce_session_id
                     (mock_world (Ret (http_response 500 "Internal Server Error")) unreachable)
                     USERNAME PASSWORD SECURITY_TOKEN IS_SANDBOX) = Ret (None, None))
      by (vm_compute; reflexivity).
    split; [exact Hres|].
    exact (main_no_probe _ None None Hres (or_introl eq_refl)).
  - assert (Hres : result (get_salesforce_session_id
                     (mock_world (Ret (http_response 200 empty_url_doc)) unreachable)
                     USERNAME PASSWORD SECURITY_TOKEN IS_SANDBOX) = Ret (Some "abc", None))
      by (vm_compute; reflexivity).
    split; [exact Hres|].
    exact (main_no_probe _ (Some "abc") None Hres (or_intror eq_refl)).
Defined.

(** X21.  After a login that returned a session id, and when the REST
    probe returns, the program writes that session id to the console in
    full, on a line of its own and again as an [Authorization] header. *)
Theorem main_prints_session_id (w : World) (session_id : string)
    (server_url : option string) :
  result (get_salesforce_session_id w USERNAME PASSWORD SECURITY_TOKEN IS_SANDBOX)
  = Ret (Some session_id, server_url) ->
  session_id <> EmptyString ->
  result (test_rest_api_with_session w (Some session_id) server_url) = Ret tt ->
  In (Print ("Session ID: " ++ session_id)) (trace (main w))
  /\ In (Print ("Authorization header: Bearer " ++ session_id)) (trace (main w)).
Proof.
  intros Hres Hid Hprobe.
  destruct (get_salesforce_session_id w USERNAME PASSWORD SECURITY_TOKEN IS_SANDBOX)
    as [tr r] eqn:Hlogin.
  unfold result in Hres. cbn [snd] in Hres. subst r.
  destruct (main_logged_in w tr session_id server_url Hlogin Hid Hprobe)
    as (line & rest & -> & _ & Hsid & Hauth).
  unfold trace at 1 3. cbn [fst].
  split; right; apply in_or_app; right; right; apply in_or_app; right; assumption.
Qed.

Lemma main_prints_session_id_witness :
  In (Print "Session ID: ABC123") (trace (main success_world))
  /\ In (Print "Authorization header: Bearer ABC123") (trace (main success_world)).
Proof.
  refine (main_prints_session_id success_world "ABC123" (Some success_url) _ _ _);
    [vm_compute; reflexivity | discriminate | vm_compute; reflexivity].
Defined.
